(** * Streaming audio reply pipeline of the realtime dialogue client

    A shallow embedding of [audio_manager.py] (classes [AudioDeviceManager]
    and [DialogSession]) together with the part of [config.py] it reads.

    Conventions of the embedding:
    - Python [bytes] / [bytearray] are [list byte]; slicing [b[:n]] is
      [take n b]; [len] is [length].
    - Python [int] is [Z]; Python [str] is [string]; a [dict] with string
      keys is a [gmap string pyval].
    - Every method of [DialogSession] is a state transformer on the record
      [DialogSession]; a method that may raise returns an [outcome].
    - Calls into external collaborators (pydub, PyAudio, the transport
      client) are recorded, in order, in the ghost field [trace]. *)

From Stdlib Require Import ZArith Strings.Byte.
From stdpp Require Import base decidable option list strings gmap fin_maps.

Local Open Scope Z_scope.
Local Set Warnings "-register-all".

(** ** Python values *)

Definition bytes := list byte.

#[global] Instance byte_eq_dec : EqDecision byte := Byte.byte_eq_dec.

(** The values that occur in the dictionaries this program inspects. *)
Inductive pyval :=
| PNone
| PInt (z : Z)
| PStr (s : string)
| PBytes (b : bytes)
| PDict (d : gmap string pyval).

(** [v == 'literal'] for a string literal. *)
Definition py_eq_str (v : pyval) (s : string) : bool :=
  match v with PStr s' => bool_decide (s' = s) | _ => false end.

(** [v == n] for an integer literal. *)
Definition py_eq_int (v : pyval) (n : Z) : bool :=
  match v with PInt z => bool_decide (z = n) | _ => false end.

(** Python exceptions raised or caught by this program.  [CancelledError]
    derives from [BaseException], the three others from [Exception]. *)
Inductive exn :=
| KeyError (key : string)
| ServerError            (* Exception("服务器错误") *)
| LibraryError           (* anything raised by an external collaborator *)
| CancelledError.

Definition is_Exception (e : exn) : bool :=
  match e with CancelledError => false | _ => true end.

Inductive outcome (A : Type) :=
| Ret (a : A)
| Raise (e : exn).
Arguments Ret {A} a.
Arguments Raise {A} e.

(** ** Byte-string literals and the [in] operator *)

(** b'OggS' = 4F 67 67 53 *)
Definition OggS : bytes := [x4f; x67; x67; x53].
(** b'\x1A\x45\xDF\xA3' *)
Definition EBML : bytes := [x1a; x45; xdf; xa3].
(** b'OpusHead' *)
Definition OpusHead : bytes := [x4f; x70; x75; x73; x48; x65; x61; x64].

Definition starts_with (sub b : bytes) : bool :=
  bool_decide (take (length sub) b = sub).

(** [sub in b] on byte strings: [sub] occurs as a contiguous run of [b]. *)
Fixpoint bytes_in (sub b : bytes) : bool :=
  starts_with sub b ||
  match b with
  | [] => false
  | _ :: b' => bytes_in sub b'
  end.

(** ** config.py *)

Record AudioConfig := {
  format : string;
  bit_size : Z;
  channels : Z;
  sample_rate : Z;
  chunk : Z
}.

(** The module object [config]: [start_session_req] is an attribute that a
    script may remove or rewrite ([hasattr] is tested by the detector), the
    two audio configurations are read when a session is built. *)
Record ConfigModule := {
  start_session_req : option (gmap string pyval);
  input_audio_config : AudioConfig;
  output_audio_config : AudioConfig
}.

Definition paInt16 : Z := 8.

Definition default_input_audio_config : AudioConfig :=
  {| chunk := 3200; format := "pcm"; channels := 1;
     sample_rate := 16000; bit_size := paInt16 |}.

Definition default_output_audio_config : AudioConfig :=
  {| chunk := 3200; format := "pcm"; channels := 1;
     sample_rate := 24000; bit_size := paInt16 |}.

(** [config.py] as shipped: the "tts" entry is commented out. *)
Definition config_py : ConfigModule :=
  {| start_session_req :=
       Some {[ "dialog" := PDict {[ "bot_name" := PStr "豆包" ]} ]};
     input_audio_config := default_input_audio_config;
     output_audio_config := default_output_audio_config |}.

(** [not hasattr(config, 'start_session_req') or 'tts' not in config.start_session_req] *)
Definition no_tts_config (config : ConfigModule) : bool :=
  match start_session_req config with
  | None => true
  | Some req => negb (bool_decide (is_Some (req !! "tts")))
  end.

(** The flag of the specification: the session was configured to request an
    uncompressed reply stream, that is, [config.start_session_req] exists and
    has a "tts" entry. *)
Definition has_configured_uncompressed_reply (config : ConfigModule) : bool :=
  match start_session_req config with
  | None => false
  | Some req => bool_decide (is_Some (req !! "tts"))
  end.

(** ** DialogSession._detect_audio_format

    The detector answers with the strings "pcm" and "ogg"; the specification
    calls them [Pcm] and [Container]. *)

Definition _detect_audio_format (config : ConfigModule) (audio_data : bytes) : string :=
  if bool_decide (Z.of_nat (length audio_data) < 4) then "pcm"
  else if bool_decide (take 4 audio_data = OggS) then "ogg"
  else if bool_decide (take 4 audio_data = EBML) then "ogg"
  else if bytes_in OpusHead (take 64 audio_data) then "ogg"
  else if no_tts_config config then "ogg"
  else "pcm".

(** ** pydub: the container-decoding collaborator

    [AudioSegment.from_file] and the three conversions are external; each may
    raise, which is [None] here.  They are functions of their arguments: the
    same bytes decode the same way every time. *)
Module pydub.
Record AudioSegment := {
  raw_data : bytes;
  frame_rate : Z;
  channels : Z;
  sample_width : Z
}.

Class Codec := {
  from_file : bytes -> string -> option AudioSegment;
  set_frame_rate : AudioSegment -> Z -> option AudioSegment;
  set_channels : AudioSegment -> Z -> option AudioSegment;
  set_sample_width : AudioSegment -> Z -> option AudioSegment
}.

(** What pydub documents for the conversions: each one sets its own
    attribute and keeps the two others. *)
Class CodecLaws (C : Codec) : Prop := {
  set_frame_rate_spec a r a' :
    set_frame_rate a r = Some a' ->
    frame_rate a' = r /\ channels a' = channels a /\ sample_width a' = sample_width a;
  set_channels_spec a c a' :
    set_channels a c = Some a' ->
    channels a' = c /\ frame_rate a' = frame_rate a /\ sample_width a' = sample_width a;
  set_sample_width_spec a w a' :
    set_sample_width a w = Some a' ->
    sample_width a' = w /\ frame_rate a' = frame_rate a /\ channels a' = channels a
}.
End pydub.

(** ** Calls on external collaborators, as recorded in the trace *)

Inductive Stream := MicStream | SpeakerStream.

Inductive effect :=
| pydub_from_file (attempt_pages : Z) (data : bytes)
| pa_open (st : Stream)
| pa_read (st : Stream)
| pa_write (st : Stream) (audio_data : bytes)
| pa_stop_stream (st : Stream)
| pa_close (st : Stream)
| pa_terminate
| client_connect
| client_task_request (audio : bytes)
| client_finish_session
| client_finish_connection
| client_close.

(** The calls that release the audio device. *)
Definition is_release (e : effect) : bool :=
  match e with
  | pa_stop_stream _ | pa_close _ | pa_terminate => true
  | _ => false
  end.

Definition releases (es : list effect) : list effect :=
  filter (fun e => is_release e = true) es.

(** The calls of the decode primitive. *)
Definition is_decode (e : effect) : bool :=
  match e with
  | pydub_from_file _ _ => true
  | _ => false
  end.

(** ** AudioDeviceManager *)
Module AudioDeviceManager.
Record t := {
  input_config : AudioConfig;
  output_config : AudioConfig;
  input_stream : option Stream;
  output_stream : option Stream
}.

Definition __init__ (input_config output_config : AudioConfig) : t :=
  {| input_config := input_config; output_config := output_config;
     input_stream := None; output_stream := None |}.

Definition open_input_stream (self : t) : t * list effect :=
  ({| input_config := input_config self; output_config := output_config self;
      input_stream := Some MicStream; output_stream := output_stream self |},
   [pa_open MicStream]).

Definition open_output_stream (self : t) : t * list effect :=
  ({| input_config := input_config self; output_config := output_config self;
      input_stream := input_stream self; output_stream := Some SpeakerStream |},
   [pa_open SpeakerStream]).

(** for stream in [input_stream, output_stream]: if stream: stop; close.
    Then terminate. *)
Definition cleanup (self : t) : list effect :=
  flat_map (fun stream : option Stream =>
              match stream with
              | Some st => [pa_stop_stream st; pa_close st]
              | None => []
              end)
           [input_stream self; output_stream self]
  ++ [pa_terminate].
End AudioDeviceManager.

(** ** DialogSession: the object state *)

Record DialogSession := {
  audio_device : AudioDeviceManager.t;
  output_config : AudioConfig;
  is_running : bool;
  is_session_finished : bool;
  audio_queue : list bytes;
  output_stream : option Stream;
  is_recording : bool;
  is_playing : bool;
  ogg_buffer : bytes;
  ogg_pages_count : Z;
  trace : list effect
}.

Definition M (A : Type) : Type := DialogSession -> outcome A * DialogSession.

Definition ret {A} (a : A) : M A := fun self => (Ret a, self).
Definition raise {A} (e : exn) : M A := fun self => (Raise e, self).
Definition bind {A B} (m : M A) (k : A -> M B) : M B :=
  fun self =>
    match m self with
    | (Ret a, self') => k a self'
    | (Raise e, self') => (Raise e, self')
    end.

Notation "x <- m ;; k" := (bind m (fun x => k))
  (at level 100, m at next level, right associativity).
Notation "m ;;; k" := (bind m (fun _ => k))
  (at level 100, right associativity).

(** Field assignments. *)
Definition emit (es : list effect) (self : DialogSession) : DialogSession :=
  {| audio_device := audio_device self; output_config := output_config self;
     is_running := is_running self; is_session_finished := is_session_finished self;
     audio_queue := audio_queue self; output_stream := output_stream self;
     is_recording := is_recording self; is_playing := is_playing self;
     ogg_buffer := ogg_buffer self; ogg_pages_count := ogg_pages_count self;
     trace := trace self ++ es |}.

Definition set_ogg (buffer : bytes) (pages : Z) (self : DialogSession) : DialogSession :=
  {| audio_device := audio_device self; output_config := output_config self;
     is_running := is_running self; is_session_finished := is_session_finished self;
     audio_queue := audio_queue self; output_stream := output_stream self;
     is_recording := is_recording self; is_playing := is_playing self;
     ogg_buffer := buffer; ogg_pages_count := pages;
     trace := trace self |}.

Definition set_audio_queue (q : list bytes) (self : DialogSession) : DialogSession :=
  {| audio_device := audio_device self; output_config := output_config self;
     is_running := is_running self; is_session_finished := is_session_finished self;
     audio_queue := q; output_stream := output_stream self;
     is_recording := is_recording self; is_playing := is_playing self;
     ogg_buffer := ogg_buffer self; ogg_pages_count := ogg_pages_count self;
     trace := trace self |}.

Definition set_is_session_finished (b : bool) (self : DialogSession) : DialogSession :=
  {| audio_device := audio_device self; output_config := output_config self;
     is_running := is_running self; is_session_finished := b;
     audio_queue := audio_queue self; output_stream := output_stream self;
     is_recording := is_recording self; is_playing := is_playing self;
     ogg_buffer := ogg_buffer self; ogg_pages_count := ogg_pages_count self;
     trace := trace self |}.

Definition set_audio_device (d : AudioDeviceManager.t) (self : DialogSession) : DialogSession :=
  {| audio_device := d; output_config := output_config self;
     is_running := is_running self; is_session_finished := is_session_finished self;
     audio_queue := audio_queue self; output_stream := output_stream self;
     is_recording := is_recording self; is_playing := is_playing self;
     ogg_buffer := ogg_buffer self; ogg_pages_count := ogg_pages_count self;
     trace := trace self |}.

(** The session without its record of external calls. *)
Definition forget_trace (self : DialogSession) : DialogSession :=
  {| audio_device := audio_device self; output_config := output_config self;
     is_running := is_running self; is_session_finished := is_session_finished self;
     audio_queue := audio_queue self; output_stream := output_stream self;
     is_recording := is_recording self; is_playing := is_playing self;
     ogg_buffer := ogg_buffer self; ogg_pages_count := ogg_pages_count self;
     trace := [] |}.

(** [__init__]: the session as built from the configuration module; the
    output stream is opened at construction. *)
Definition __init__ (config : ConfigModule) : DialogSession :=
  let dev := AudioDeviceManager.__init__ (input_audio_config config)
                                         (output_audio_config config) in
  let '(dev', es) := AudioDeviceManager.open_output_stream dev in
  {| audio_device := dev'; output_config := output_audio_config config;
     is_running := true; is_session_finished := false;
     audio_queue := []; output_stream := AudioDeviceManager.output_stream dev';
     is_recording := true; is_playing := true;
     ogg_buffer := []; ogg_pages_count := 0;
     trace := es |}.

(** [_keyboard_signal]: the SIGINT handler. *)
Definition _keyboard_signal (self : DialogSession) : DialogSession :=
  {| audio_device := audio_device self; output_config := output_config self;
     is_running := false; is_session_finished := is_session_finished self;
     audio_queue := audio_queue self; output_stream := output_stream self;
     is_recording := false; is_playing := false;
     ogg_buffer := ogg_buffer self; ogg_pages_count := ogg_pages_count self;
     trace := trace self |}.

(** ** queue.Queue, as used for [audio_queue] *)

Definition queue_put (item : bytes) (q : list bytes) : list bytes := q ++ [item].
Definition queue_empty (q : list bytes) : bool := bool_decide (q = []).
(** [None] is [queue.Empty]. *)
Definition queue_get_nowait (q : list bytes) : option (bytes * list bytes) :=
  match q with
  | [] => None
  | item :: q' => Some (item, q')
  end.

(** while not q.empty(): try: q.get_nowait() except queue.Empty: continue.
    Each turn of the loop takes the head of the queue away, so the loop is
    written by recursion on the queue. *)
Fixpoint drain_queue (q : list bytes) : list bytes :=
  match q with
  | [] => []
  | _ :: q' => drain_queue q'
  end.

(** Python's [range(lo, hi)]. *)
Definition range (lo hi : Z) : list Z := seqZ lo (hi - lo).

(** [d[k]] on a dictionary. *)
Definition getitem (d : gmap string pyval) (k : string) : M pyval :=
  fun self =>
    match d !! k with
    | Some v => (Ret v, self)
    | None => (Raise (KeyError k), self)
    end.

Section Session.
Context `{Codec : pydub.Codec}.

(** *** DialogSession._process_ogg_stream *)

(** The body of the [try]: decode the whole buffer, convert to the output
    configuration and to 2-byte samples.  [None]: something raised. *)
Definition decode_buffer (self : DialogSession) : option bytes :=
  audio ← pydub.from_file (ogg_buffer self) "ogg";
  audio ← pydub.set_frame_rate audio (sample_rate (output_config self));
  audio ← pydub.set_channels audio (channels (output_config self));
  audio ← pydub.set_sample_width audio 2;
  Some (pydub.raw_data audio).

(** for attempt_pages in range(...): try ... return pcm_data
                                     except Exception: continue.
    The result is [Some pcm_data] when the function returned from inside
    the loop, [None] when the loop ran to its end. *)
Fixpoint decode_attempts (attempts : list Z) (self : DialogSession)
  : option bytes * DialogSession :=
  match attempts with
  | [] => (None, self)
  | attempt_pages :: attempts' =>
      let self := emit [pydub_from_file attempt_pages (ogg_buffer self)] self in
      match decode_buffer self with
      | Some pcm_data => (Some pcm_data, set_ogg [] 0 self)
      | None => decode_attempts attempts' self
      end
  end.

Definition min_pages : Z := 3.
Definition max_pages : Z := 8.

(** self.ogg_buffer.extend(ogg_page); self.ogg_pages_count += 1 *)
Definition accumulate (ogg_page : bytes) (self : DialogSession) : DialogSession :=
  set_ogg (ogg_buffer self ++ ogg_page) (ogg_pages_count self + 1) self.

Definition _process_ogg_stream (ogg_page : bytes) (self : DialogSession)
  : bytes * DialogSession :=
  let self := accumulate ogg_page self in
  if bool_decide (ogg_pages_count self >= min_pages) then
    match decode_attempts
            (range min_pages (Z.min (ogg_pages_count self + 1) (max_pages + 1)))
            self with
    | (Some pcm_data, self) => (pcm_data, self)
    | (None, self) =>
        if bool_decide (ogg_pages_count self >= max_pages)
           || bool_decide (Z.of_nat (length (ogg_buffer self)) > 50000)
        then ([], set_ogg [] 0 self)
        else ([], self)
    end
  else ([], self).

Definition _convert_ogg_to_pcm (ogg_data : bytes) (self : DialogSession)
  : bytes * DialogSession :=
  _process_ogg_stream ogg_data self.

(** The calls of the decode primitive made by a loop that never succeeds. *)
Definition failed_attempts (attempts : list Z) (self : DialogSession) : list effect :=
  (fun attempt_pages => pydub_from_file attempt_pages (ogg_buffer self)) <$> attempts.

(** The reset condition of [_process_ogg_stream], on the state it is
    evaluated in. *)
Definition overflow (self : DialogSession) : bool :=
  bool_decide (ogg_pages_count self >= max_pages)
  || bool_decide (Z.of_nat (length (ogg_buffer self)) > 50000).

(** A run of calls, one per page; the results are listed in call order. *)
Fixpoint process_ogg_pages (ogg_pages : list bytes) (self : DialogSession)
  : list bytes * DialogSession :=
  match ogg_pages with
  | [] => ([], self)
  | ogg_page :: ogg_pages' =>
      let '(pcm_data, self) := _process_ogg_stream ogg_page self in
      let '(results, self) := process_ogg_pages ogg_pages' self in
      (pcm_data :: results, self)
  end.

(** The reference the retry loop is compared with: the same call with one
    decode of the whole buffer in place of the loop over window sizes. *)
Definition process_ogg_stream_single_attempt (ogg_page : bytes) (self : DialogSession)
  : bytes * DialogSession :=
  let self := accumulate ogg_page self in
  if bool_decide (ogg_pages_count self >= min_pages) then
    match decode_buffer self with
    | Some pcm_data => (pcm_data, set_ogg [] 0 self)
    | None =>
        if bool_decide (ogg_pages_count self >= max_pages)
           || bool_decide (Z.of_nat (length (ogg_buffer self)) > 50000)
        then ([], set_ogg [] 0 self)
        else ([], self)
    end
  else ([], self).

(** *** DialogSession.handle_server_response

    [_debug_audio_data] and the [print] calls write to the console only and
    are left out. *)

Definition handle_server_ack (config : ConfigModule) (audio_data : bytes) : M unit :=
  fun self =>
    let audio_format := _detect_audio_format config audio_data in
    if bool_decide (audio_format = "ogg") then
      let '(audio_data, self) := _convert_ogg_to_pcm audio_data self in
      if bool_decide (length audio_data = 0%nat) then (Ret tt, self)
      else if bool_decide (Z.of_nat (length audio_data) > 0)
           then (Ret tt, set_audio_queue (queue_put audio_data (audio_queue self)) self)
           else (Ret tt, self)
    else
      if bool_decide (Z.of_nat (length audio_data) > 0)
      then (Ret tt, set_audio_queue (queue_put audio_data (audio_queue self)) self)
      else (Ret tt, self).

Definition is_bytes (v : option pyval) : option bytes :=
  match v with
  | Some (PBytes b) => Some b
  | _ => None
  end.

Definition handle_server_response (config : ConfigModule)
           (response : gmap string pyval) : M unit :=
  if bool_decide (response = ∅) then ret tt
  else
    message_type <- getitem response "message_type";;
    match py_eq_str message_type "SERVER_ACK", is_bytes (response !! "payload_msg") with
    | true, Some audio_data => handle_server_ack config audio_data
    | _, _ =>
        if py_eq_str message_type "SERVER_FULL_RESPONSE" then
          event <- getitem response "event";;
          if py_eq_int event 450 then
            _ <- getitem response "session_id";;
            fun self => (Ret tt, set_audio_queue (drain_queue (audio_queue self)) self)
          else ret tt
        else if py_eq_str message_type "SERVER_ERROR" then
          _ <- getitem response "payload_msg";;
          raise ServerError
        else ret tt
    end.
End Session.

(** ** The three coroutines

    A coroutine runs until its next [await]; what the awaited call delivers
    comes from outside and is an input of the model. *)

(** What [await self.client.receive_server_response()] delivers. *)
Inductive received :=
| frame (response : gmap string pyval)
| receive_raises (e : exn).

(** How [receive_loop] ends. *)
Inductive receive_exit :=
| session_finished_event      (* break after event 152 or 153 *)
| receive_cancelled           (* except asyncio.CancelledError *)
| receive_error (e : exn).    (* except Exception *)

Definition receive_exit_of (e : exn) : receive_exit :=
  if is_Exception e then receive_error e else receive_cancelled.

(** ['event' in response and (response['event'] == 152 or response['event'] == 153)] *)
Definition is_finish_event (response : gmap string pyval) : bool :=
  match response !! "event" with
  | Some event => py_eq_int event 152 || py_eq_int event 153
  | None => false
  end.

(** What one turn of the capture loop meets. *)
Inductive mic_event :=
| mic_read (audio_data : bytes)     (* read and sent *)
| mic_raises                        (* stream.read raised *)
| send_raises (audio_data : bytes)  (* task_request raised *)
| capture_cancelled.                (* CancelledError at an await *)

Inductive capture_exit :=
| recording_flag_cleared
| capture_task_cancelled.

Section Coroutines.
Context `{Codec : pydub.Codec}.
Variable config : ConfigModule.

(** One turn of [while True] in [receive_loop]; [None]: the loop goes on. *)
Definition receive_iteration (r : received) (self : DialogSession)
  : option receive_exit * DialogSession :=
  match r with
  | receive_raises e => (Some (receive_exit_of e), self)
  | frame response =>
      match handle_server_response config response self with
      | (Raise e, self) => (Some (receive_exit_of e), self)
      | (Ret _, self) =>
          if is_finish_event response
          then (Some session_finished_event, set_is_session_finished true self)
          else (None, self)
      end
  end.

(** [receive_loop] on the frames delivered so far; [None]: the coroutine is
    suspended in [await], waiting for the next one. *)
Fixpoint receive_loop (rs : list received) (self : DialogSession)
  : option receive_exit * DialogSession :=
  match rs with
  | [] => (None, self)
  | r :: rs' =>
      match receive_iteration r self with
      | (Some ex, self) => (Some ex, self)
      | (None, self) => receive_loop rs' self
      end
  end.

(** One turn of [while self.is_recording] in [process_microphone_input];
    [None]: the loop goes on.  An exception of [stream.read] or of
    [save_pcm_to_wav] is [mic_raises]: nothing has been sent. *)
Definition capture_iteration (ev : mic_event) (self : DialogSession)
  : option capture_exit * DialogSession :=
  if is_recording self then
    match ev with
    | mic_read audio_data =>
        (None, emit [pa_read MicStream; client_task_request audio_data] self)
    | mic_raises => (None, emit [pa_read MicStream] self)
    | send_raises audio_data =>
        (None, emit [pa_read MicStream; client_task_request audio_data] self)
    | capture_cancelled => (Some capture_task_cancelled, self)
    end
  else (Some recording_flag_cleared, self).

Fixpoint capture_loop (evs : list mic_event) (self : DialogSession)
  : option capture_exit * DialogSession :=
  match evs with
  | [] => if is_recording self then (None, self)
          else (Some recording_flag_cleared, self)
  | ev :: evs' =>
      match capture_iteration ev self with
      | (Some ex, self) => (Some ex, self)
      | (None, self) => capture_loop evs' self
      end
  end.

Definition process_microphone_input (evs : list mic_event) (self : DialogSession)
  : option capture_exit * DialogSession :=
  let '(dev, es) := AudioDeviceManager.open_input_stream (audio_device self) in
  capture_loop evs (emit es (set_audio_device dev self)).

(** One turn of [while self.is_playing] in [_audio_player_thread]: the
    oldest chunk, if there is one, is written to the output stream (a failed
    write is printed and the loop goes on); [false]: the loop has ended. *)
Definition audio_player_iteration (self : DialogSession) : bool * DialogSession :=
  if is_playing self then
    match queue_get_nowait (audio_queue self) with
    | Some (audio_data, q) =>
        (true, emit [pa_write SpeakerStream audio_data] (set_audio_queue q self))
    | None => (true, self)
    end
  else (false, self).

(** *** The event loop around [start]

    The signal handler and the player thread can run between any two
    statements of the capture coroutine, and the signal handler and the main
    thread between any two statements of the player thread.  The two loops
    are therefore advanced statement by statement here: the flag of a loop
    is read at its top only, and a turn that has passed the test is carried
    through whatever happens to the flag meanwhile.  Steps of different
    activities may follow one another in any order; every run of the program
    is among the runs so described. *)

Inductive task_state := not_created | created | looping | finished.

(** Where the capture coroutine stands: not yet scheduled, at the top of
    its loop (or in the sleep that ends a turn), past the test and about to
    read, or holding a chunk that is about to be saved and sent. *)
Inductive capture_state :=
| capture_not_created
| capture_created
| capture_at_loop_top
| capture_reading
| capture_sending (audio_data : bytes)
| capture_finished.

(** Where the player thread stands: at the top of its loop, inside
    [audio_queue.get], or holding a chunk that is about to be written. *)
Inductive player_state :=
| player_at_loop_top
| player_waiting
| player_writing (audio_data : bytes)
| player_finished.

(** One statement of [process_microphone_input]; [ev] is what the statement
    meets.  A cancellation is delivered at an [await] only. *)
Definition capture_step (ev : mic_event) (st : capture_state) (self : DialogSession)
  : capture_state * DialogSession :=
  match st with
  | capture_not_created | capture_finished => (st, self)
  | capture_created =>
      match ev with
      | capture_cancelled => (capture_finished, self)
      | _ =>
          let '(dev, es) := AudioDeviceManager.open_input_stream (audio_device self) in
          (capture_at_loop_top, emit es (set_audio_device dev self))
      end
  | capture_at_loop_top =>
      match ev with
      | capture_cancelled => (capture_finished, self)
      | _ => if is_recording self then (capture_reading, self)
             else (capture_finished, self)
      end
  | capture_reading =>
      match ev with
      | mic_read audio_data | send_raises audio_data =>
          (capture_sending audio_data, emit [pa_read MicStream] self)
      | mic_raises => (capture_at_loop_top, emit [pa_read MicStream] self)
      | capture_cancelled => (capture_reading, self)
      end
  | capture_sending audio_data =>
      match ev with
      | mic_raises => (capture_at_loop_top, self)
      | capture_cancelled =>
          (capture_finished, emit [client_task_request audio_data] self)
      | _ => (capture_at_loop_top, emit [client_task_request audio_data] self)
      end
  end.

(** One statement of [_audio_player_thread]: the test of [is_playing], the
    [get] (on an empty queue it times out and the loop starts over), the
    write. *)
Definition player_step (st : player_state) (self : DialogSession)
  : player_state * DialogSession :=
  match st with
  | player_at_loop_top =>
      if is_playing self then (player_waiting, self) else (player_finished, self)
  | player_waiting =>
      match queue_get_nowait (audio_queue self) with
      | Some (audio_data, q) => (player_writing audio_data, set_audio_queue q self)
      | None => (player_at_loop_top, self)
      end
  | player_writing audio_data =>
      (player_at_loop_top, emit [pa_write SpeakerStream audio_data] self)
  | player_finished => (st, self)
  end.

Record EventLoop := {
  session : DialogSession;
  capture_task : capture_state;
  receive_task : task_state;
  player_thread : player_state
}.

Definition on_session (f : DialogSession -> DialogSession) (w : EventLoop) : EventLoop :=
  {| session := f (session w);
     capture_task := capture_task w; receive_task := receive_task w;
     player_thread := player_thread w |}.

(** What runs while [start] is suspended in an [await]. *)
Inductive background :=
| SIGINT
| receive_wakes (r : received)
| capture_wakes (ev : mic_event)
| player_wakes.

Definition run_receive_task (r : received) (w : EventLoop) : EventLoop :=
  match receive_task w with
  | created | looping =>
      let '(ex, self) := receive_iteration r (session w) in
      {| session := self; capture_task := capture_task w;
         receive_task := match ex with Some _ => finished | None => looping end;
         player_thread := player_thread w |}
  | _ => w
  end.

Definition run_capture_task (ev : mic_event) (w : EventLoop) : EventLoop :=
  let '(st, self) := capture_step ev (capture_task w) (session w) in
  {| session := self; capture_task := st; receive_task := receive_task w;
     player_thread := player_thread w |}.

Definition run_player_thread (w : EventLoop) : EventLoop :=
  let '(st, self) := player_step (player_thread w) (session w) in
  {| session := self; capture_task := capture_task w; receive_task := receive_task w;
     player_thread := st |}.

Definition run_background (b : background) (w : EventLoop) : EventLoop :=
  match b with
  | SIGINT => on_session _keyboard_signal w
  | receive_wakes r => run_receive_task r w
  | capture_wakes ev => run_capture_task ev w
  | player_wakes => run_player_thread w
  end.

(** The [await]s of [start], in program order. *)
Inductive await_point :=
| at_connect
| at_running_sleep
| at_finish_session
| at_finished_sleep
| at_finish_connection
| at_sleep
| at_close.

(** One suspension of [start]: what ran meanwhile, and whether the awaited
    call returned or raised. *)
Record tick := {
  during : list background;
  raised : option exn
}.

(** while self.is_running: await asyncio.sleep(0.1)
    await self.client.finish_session() *)
Definition running_loop (w : EventLoop) : await_point * EventLoop :=
  if is_running (session w) then (at_running_sleep, w)
  else (at_finish_session, on_session (emit [client_finish_session]) w).

(** while not self.is_session_finished: await asyncio.sleep(0.1)
    await self.client.finish_connection() *)
Definition finished_loop (w : EventLoop) : await_point * EventLoop :=
  if negb (is_session_finished (session w)) then (at_finished_sleep, w)
  else (at_finish_connection, on_session (emit [client_finish_connection]) w).

(** The code of the [try] body between one [await] and the next;
    [inr tt]: the body ran to its end. *)
Definition after_await (p : await_point) (w : EventLoop)
  : (await_point + unit) * EventLoop :=
  match p with
  | at_connect =>
      let w := {| session := session w;
                  capture_task := capture_created; receive_task := created;
                  player_thread := player_thread w |} in
      let '(p', w) := running_loop w in (inl p', w)
  | at_running_sleep => let '(p', w) := running_loop w in (inl p', w)
  | at_finish_session => let '(p', w) := finished_loop w in (inl p', w)
  | at_finished_sleep => let '(p', w) := finished_loop w in (inl p', w)
  | at_finish_connection => (inl at_sleep, w)
  | at_sleep => (inl at_close, on_session (emit [client_close]) w)
  | at_close => (inr tt, w)
  end.

Inductive try_exit :=
| still_awaiting (p : await_point)
| completed
| raised_in_try (e : exn).

Fixpoint run_try (p : await_point) (ticks : list tick) (w : EventLoop)
  : try_exit * EventLoop :=
  match ticks with
  | [] => (still_awaiting p, w)
  | t :: ticks' =>
      let w := foldl (fun w b => run_background b w) w (during t) in
      match raised t with
      | Some e => (raised_in_try e, w)
      | None =>
          match after_await p w with
          | (inl p', w) => run_try p' ticks' w
          | (inr _, w) => (completed, w)
          end
      end
  end.

(** How a call of [start] stands after the given suspensions. *)
Inductive start_exit :=
| start_pending (p : await_point)   (* no exit yet *)
| start_returned                    (* the try body ran to its end *)
| start_caught (e : exn)            (* except Exception, then return *)
| start_propagated (e : exn).       (* not an Exception: leaves start *)

(** finally: self.audio_device.cleanup() *)
Definition finally_cleanup (w : EventLoop) : EventLoop :=
  on_session (fun self => emit (AudioDeviceManager.cleanup (audio_device self)) self) w.

Definition start (ticks : list tick) (w : EventLoop) : start_exit * EventLoop :=
  match run_try at_connect ticks (on_session (emit [client_connect]) w) with
  | (still_awaiting p, w) => (start_pending p, w)
  | (completed, w) => (start_returned, finally_cleanup w)
  | (raised_in_try e, w) =>
      if is_Exception e then (start_caught e, finally_cleanup w)
      else (start_propagated e, finally_cleanup w)
  end.

(** A session right after construction, before [start] is called. *)
Definition new_event_loop : EventLoop :=
  {| session := __init__ config;
     capture_task := capture_not_created; receive_task := not_created;
     player_thread := player_at_loop_top |}.
End Coroutines.

(** ** Observations on sessions and traces *)

(** The fields of a session that hold flags, configuration and devices:
    everything but the playback queue, the OGG accumulator and the trace. *)
Definition session_controls (self : DialogSession)
  : bool * bool * bool * bool * AudioDeviceManager.t * AudioConfig * option Stream :=
  (is_running self, is_session_finished self, is_recording self, is_playing self,
   audio_device self, output_config self, output_stream self).


(** The chunks handed to [output_stream.write], in call order. *)
Definition written_chunks (es : list effect) : list bytes :=
  omap (fun e => match e with pa_write _ audio_data => Some audio_data | _ => None end) es.


(** Reads from the microphone, sends to the transport, writes to the speaker. *)
Definition is_audio_io (e : effect) : bool :=
  match e with
  | pa_read _ | pa_write _ _ | client_task_request _ => true
  | _ => false
  end.


(** The calls of [start] on the transport. *)
Definition is_control (e : effect) : bool :=
  match e with
  | client_connect | client_finish_session | client_finish_connection | client_close => true
  | _ => false
  end.

Definition control_calls (es : list effect) : list effect :=
  filter (fun e => is_control e = true) es.

(** The transport calls [start] has made when it is suspended at an [await]. *)
Definition controls_at (p : await_point) : list effect :=
  match p with
  | at_connect | at_running_sleep => [client_connect]
  | at_finish_session | at_finished_sleep => [client_connect; client_finish_session]
  | at_finish_connection | at_sleep =>
      [client_connect; client_finish_session; client_finish_connection]
  | at_close =>
      [client_connect; client_finish_session; client_finish_connection; client_close]
  end.

(** Where [start] stands in its shutdown sequence: past the wait for the
    stop flag, and past the wait for the finished flag. *)
Definition past_running_loop (p : await_point) : bool :=
  match p with
  | at_connect | at_running_sleep => false
  | _ => true
  end.

Definition past_finished_loop (p : await_point) : bool :=
  match p with
  | at_finish_connection | at_sleep | at_close => true
  | _ => false
  end.




(** [n] turns of the loop of [_audio_player_thread]. *)
Fixpoint audio_player_run (n : nat) (self : DialogSession) : DialogSession :=
  match n with
  | O => self
  | S n' => audio_player_run n' (snd (audio_player_iteration self))
  end.

(** The bounds the accumulator is kept within between calls. *)
Definition accumulator_bounded (self : DialogSession) : Prop :=
  0 <= ogg_pages_count self < max_pages /\
  (ogg_pages_count self >= min_pages ->
   Z.of_nat (length (ogg_buffer self)) <= 50000).

(** The concatenation of the last [n] of the given pages. *)
Definition last_pages (n : Z) (ogg_pages : list bytes) : bytes :=
  concat (drop (length ogg_pages - Z.to_nat n) ogg_pages).

(** An acknowledgement frame carrying audio. *)
Definition ack_frame (audio_data : bytes) : gmap string pyval :=
  <[ "message_type" := PStr "SERVER_ACK" ]> {[ "payload_msg" := PBytes audio_data ]}.

(** ** Concrete collaborators and inputs used in the examples *)

(** A codec that decodes exactly the buffers starting with the OGG capture
    pattern, to 48 kHz stereo with 4-byte samples, and converts by
    relabelling. *)
Definition example_codec : pydub.Codec :=
  {| pydub.from_file := fun data _ =>
       if starts_with OggS data
       then Some {| pydub.raw_data := data; pydub.frame_rate := 48000;
                    pydub.channels := 2; pydub.sample_width := 4 |}
       else None;
     pydub.set_frame_rate := fun a r =>
       Some {| pydub.raw_data := pydub.raw_data a; pydub.frame_rate := r;
               pydub.channels := pydub.channels a;
               pydub.sample_width := pydub.sample_width a |};
     pydub.set_channels := fun a c =>
       Some {| pydub.raw_data := pydub.raw_data a; pydub.frame_rate := pydub.frame_rate a;
               pydub.channels := c; pydub.sample_width := pydub.sample_width a |};
     pydub.set_sample_width := fun a w =>
       Some {| pydub.raw_data := pydub.raw_data a; pydub.frame_rate := pydub.frame_rate a;
               pydub.channels := pydub.channels a; pydub.sample_width := w |} |}.

(** A codec on which every decode raises. *)
Definition undecodable_codec : pydub.Codec :=
  {| pydub.from_file := fun _ _ => None;
     pydub.set_frame_rate := fun a _ => Some a;
     pydub.set_channels := fun a _ => Some a;
     pydub.set_sample_width := fun a _ => Some a |}.

(** A codec that decodes every buffer to a segment without samples. *)
Definition silent_codec : pydub.Codec :=
  {| pydub.from_file := fun _ _ =>
       Some {| pydub.raw_data := []; pydub.frame_rate := 48000;
               pydub.channels := 2; pydub.sample_width := 2 |};
     pydub.set_frame_rate := fun a _ => Some a;
     pydub.set_channels := fun a _ => Some a;
     pydub.set_sample_width := fun a _ => Some a |}.

(** [config.py] with the commented-out "tts" entry switched on. *)
Definition config_with_tts : ConfigModule :=
  {| start_session_req :=
       Some (<[ "tts" :=
                PDict {[ "audio_config" :=
                         PDict (<[ "channel" := PInt 1 ]>
                                (<[ "format" := PStr "pcm" ]>
                                 {[ "sample_rate" := PInt 24000 ]})) ]} ]>
             {[ "dialog" := PDict {[ "bot_name" := PStr "豆包" ]} ]});
     input_audio_config := default_input_audio_config;
     output_audio_config := default_output_audio_config |}.

(** [config.start_session_req.pop('tts', None)], as the format test does. *)
Definition pop_tts (config : ConfigModule) : ConfigModule :=
  {| start_session_req := delete "tts" <$> start_session_req config;
     input_audio_config := input_audio_config config;
     output_audio_config := output_audio_config config |}.

Definition error_frame : gmap string pyval :=
  <[ "message_type" := PStr "SERVER_ERROR" ]>
  {[ "payload_msg" := PStr "upstream failure" ]}.

Definition flush_frame : gmap string pyval :=
  <[ "message_type" := PStr "SERVER_FULL_RESPONSE" ]>
  (<[ "event" := PInt 450 ]> {[ "session_id" := PStr "s-1" ]}).

Definition finish_frame : gmap string pyval :=
  <[ "message_type" := PStr "SERVER_FULL_RESPONSE" ]>
  (<[ "event" := PInt 152 ]> {[ "session_id" := PStr "s-1" ]}).

(** * Properties *)

(** ** Byte strings *)

Lemma starts_with_spec (sub b : bytes) :
  starts_with sub b = true <-> exists post, b = sub ++ post.
Proof.
  unfold starts_with. rewrite bool_decide_eq_true. split.
  - intros Hp. exists (drop (length sub) b).
    rewrite <- Hp at 1. symmetry. apply take_drop.
  - intros [post ->]. apply take_app_length.
Qed.

Lemma bytes_in_spec (sub b : bytes) :
  bytes_in sub b = true <-> exists pre post, b = pre ++ sub ++ post.
Proof.
  induction b as [|x b IH]; cbn [bytes_in].
  - rewrite orb_false_r, starts_with_spec. split.
    + intros [post Hp]. by exists [], post.
    + intros [pre [post Hp]]. destruct pre; [by exists post|discriminate].
  - rewrite orb_true_iff, starts_with_spec, IH. split.
    + intros [[post Hp]|[pre [post Hp]]].
      * by exists [], post.
      * exists (x :: pre), post. by rewrite Hp.
    + intros [pre [post Hp]]. destruct pre as [|y pre].
      * left. by exists post.
      * right. exists pre, post. by inversion Hp.
Qed.

Lemma bytes_in_false (sub b : bytes) :
  bytes_in sub b = false <-> ~ exists pre post, b = pre ++ sub ++ post.
Proof.
  rewrite <- bytes_in_spec. destruct (bytes_in sub b); split; done.
Qed.

Lemma take_length_le {A} (n : nat) (l k : list A) :
  take n l = k -> length k = n -> (n <= length l)%nat.
Proof. intros <- Hl. rewrite length_take in Hl. lia. Qed.

Lemma no_tts_config_flag config :
  no_tts_config config = negb (has_configured_uncompressed_reply config).
Proof.
  unfold no_tts_config, has_configured_uncompressed_reply.
  by destruct (start_session_req config).
Qed.

(** ** FormatDetector *)

(** C4: the detector answers "ogg" (Container) for every input whose first
    four bytes are the OGG magic or the WebM/EBML magic, and for every input
    in whose first 64 bytes the marker OpusHead occurs, whatever the
    configuration says about an uncompressed reply. *)
Theorem detect_container_on_markers (config : ConfigModule) (audio_data : bytes) :
  take 4 audio_data = OggS \/
  take 4 audio_data = EBML \/
  (exists pre post, take 64 audio_data = pre ++ OpusHead ++ post) ->
  _detect_audio_format config audio_data = "ogg".
Proof.
  intros Hm. unfold _detect_audio_format.
  assert (Hlen : ~ Z.of_nat (length audio_data) < 4).
  { destruct Hm as [Hm|[Hm|[pre [post Hm]]]].
    - apply take_length_le in Hm; [lia|done].
    - apply take_length_le in Hm; [lia|done].
    - apply (f_equal length) in Hm.
      rewrite length_take, !length_app in Hm.
      change (length OpusHead) with 8%nat in Hm. lia. }
  rewrite (bool_decide_eq_false_2 _ Hlen).
  destruct Hm as [Hm|[Hm|Hm]].
  - by rewrite (bool_decide_eq_true_2 _ Hm).
  - rewrite (bool_decide_eq_true_2 (take 4 audio_data = EBML) Hm).
    by case_bool_decide.
  - apply bytes_in_spec in Hm. rewrite Hm.
    by repeat case_bool_decide.
Qed.

Lemma detect_container_on_markers_witness :
  _detect_audio_format config_py (OggS ++ replicate 60 x00) = "ogg" /\
  _detect_audio_format config_with_tts (OggS ++ replicate 60 x00) = "ogg" /\
  _detect_audio_format config_with_tts (EBML ++ [x01]) = "ogg" /\
  _detect_audio_format config_with_tts (replicate 56 x00 ++ OpusHead) = "ogg".
Proof.
  split; [|split; [|split]].
  - apply detect_container_on_markers. left. reflexivity.
  - apply detect_container_on_markers. left. reflexivity.
  - apply detect_container_on_markers. right. left. reflexivity.
  - apply detect_container_on_markers. right. right.
    exists (replicate 56 x00), []. reflexivity.
Defined.

(** C5: on an input of at least four bytes with none of the three markers
    the detector answers "pcm" exactly when an uncompressed reply was
    configured, and "ogg" (Container) otherwise. *)
Theorem detect_fallback_on_configuration (config : ConfigModule) (audio_data : bytes) :
  (4 <= length audio_data)%nat ->
  take 4 audio_data <> OggS ->
  take 4 audio_data <> EBML ->
  ~ (exists pre post, take 64 audio_data = pre ++ OpusHead ++ post) ->
  (_detect_audio_format config audio_data = "pcm"
   <-> has_configured_uncompressed_reply config = true) /\
  (has_configured_uncompressed_reply config = false ->
   _detect_audio_format config audio_data = "ogg").
Proof.
  intros Hlen Hogg Hebml Hopus. unfold _detect_audio_format.
  rewrite bool_decide_eq_false_2 by lia.
  rewrite (bool_decide_eq_false_2 _ Hogg), (bool_decide_eq_false_2 _ Hebml).
  apply bytes_in_false in Hopus. rewrite Hopus.
  rewrite no_tts_config_flag.
  destruct (has_configured_uncompressed_reply config); cbn; split; done.
Qed.

Lemma detect_fallback_on_configuration_witness :
  (_detect_audio_format config_with_tts [x00; x01; x02; x03] = "pcm"
   <-> has_configured_uncompressed_reply config_with_tts = true) /\
  (has_configured_uncompressed_reply config_py = false ->
   _detect_audio_format config_py [x00; x01; x02; x03] = "ogg").
Proof.
  split.
  - apply (detect_fallback_on_configuration config_with_tts [x00; x01; x02; x03]).
    + cbn. lia.
    + discriminate.
    + discriminate.
    + apply bytes_in_false. vm_compute. reflexivity.
  - apply (detect_fallback_on_configuration config_py [x00; x01; x02; x03]).
    + cbn. lia.
    + discriminate.
    + discriminate.
    + apply bytes_in_false. vm_compute. reflexivity.
Defined.

(** ** StreamingContainerDecoder *)

Lemma emit_nil self : emit [] self = self.
Proof. destruct self. unfold emit; cbn. by rewrite app_nil_r. Qed.

Lemma emit_emit es1 es2 self : emit es2 (emit es1 self) = emit (es1 ++ es2) self.
Proof. unfold emit; cbn. by rewrite app_assoc. Qed.

Lemma range_first lo hi : lo < hi -> range lo hi = lo :: range (lo + 1) hi.
Proof.
  intros Hlt. unfold range. rewrite seqZ_cons by lia.
  f_equal. f_equal; lia.
Qed.

Lemma elem_of_range x lo hi : x ∈ range lo hi <-> lo <= x < hi.
Proof. unfold range. rewrite elem_of_seqZ. lia. Qed.

Section DecoderProperties.
Context `{Codec : pydub.Codec}.

Lemma decode_attempts_none attempts self :
  decode_buffer self = None ->
  decode_attempts attempts self = (None, emit (failed_attempts attempts self) self).
Proof.
  revert self. induction attempts as [|n attempts IH]; intros self Hd.
  - cbn. by rewrite emit_nil.
  - cbn [decode_attempts].
    change (decode_buffer (emit [pydub_from_file n (ogg_buffer self)] self))
      with (decode_buffer self).
    rewrite Hd, IH by done. by rewrite emit_emit.
Qed.

Lemma decode_attempts_some n attempts self pcm_data :
  decode_buffer self = Some pcm_data ->
  decode_attempts (n :: attempts) self
  = (Some pcm_data, set_ogg [] 0 (emit [pydub_from_file n (ogg_buffer self)] self)).
Proof.
  intros Hd. cbn [decode_attempts].
  change (decode_buffer (emit [pydub_from_file n (ogg_buffer self)] self))
    with (decode_buffer self).
  by rewrite Hd.
Qed.

(** The three ways a call can go. *)
Lemma process_ogg_stream_cases ogg_page self :
  let self1 := accumulate ogg_page self in
  let attempts := range min_pages (Z.min (ogg_pages_count self1 + 1) (max_pages + 1)) in
  _process_ogg_stream ogg_page self =
  if bool_decide (ogg_pages_count self1 >= min_pages) then
    match decode_buffer self1 with
    | Some pcm_data =>
        (pcm_data,
         set_ogg [] 0 (emit [pydub_from_file min_pages (ogg_buffer self1)] self1))
    | None =>
        if overflow self1
        then ([], set_ogg [] 0 (emit (failed_attempts attempts self1) self1))
        else ([], emit (failed_attempts attempts self1) self1)
    end
  else ([], self1).
Proof.
  intros self1 attempts. unfold _process_ogg_stream. fold self1. fold attempts.
  case_bool_decide as Hmin; [|done].
  destruct (decode_buffer self1) as [pcm_data|] eqn:Hd.
  - unfold attempts. rewrite range_first by (unfold min_pages, max_pages in *; lia).
    by rewrite (decode_attempts_some _ _ _ _ Hd).
  - by rewrite (decode_attempts_none _ _ Hd).
Qed.

Lemma process_ogg_stream_below_min ogg_page self :
  ogg_pages_count self + 1 < min_pages ->
  _process_ogg_stream ogg_page self = ([], accumulate ogg_page self).
Proof.
  intros Hlt. rewrite process_ogg_stream_cases. cbn zeta.
  rewrite bool_decide_eq_false_2; [done|]. cbn. lia.
Qed.

(** What one call adds to the trace: decode calls only, each on the whole
    accumulated buffer, with a window between [min_pages] and [max_pages]
    that does not exceed the number of accumulated pages. *)
Lemma process_ogg_stream_trace ogg_page self :
  exists new,
    trace (snd (_process_ogg_stream ogg_page self)) = trace self ++ new /\
    Forall (fun e => exists n,
                e = pydub_from_file n (ogg_buffer self ++ ogg_page) /\
                min_pages <= n <= max_pages /\ n <= ogg_pages_count self + 1) new.
Proof.
  rewrite process_ogg_stream_cases. cbn zeta.
  case_bool_decide as Hmin; cbn in Hmin.
  - destruct (decode_buffer (accumulate ogg_page self)).
    + eexists. split; [reflexivity|]. apply Forall_singleton.
      exists min_pages. unfold min_pages, max_pages in *. split; [done|lia].
    + assert (Hall : Forall (fun e => exists n,
                e = pydub_from_file n (ogg_buffer self ++ ogg_page) /\
                min_pages <= n <= max_pages /\ n <= ogg_pages_count self + 1)
               (failed_attempts
                  (range min_pages
                     (Z.min (ogg_pages_count (accumulate ogg_page self) + 1) (max_pages + 1)))
                  (accumulate ogg_page self))).
      { unfold failed_attempts. apply Forall_fmap, Forall_forall.
        intros n Hn. apply elem_of_range in Hn. cbn in Hn.
        exists n. split; [done|]. unfold max_pages in *. lia. }
      destruct (overflow _); eexists; (split; [reflexivity|exact Hall]).
  - exists []. split; [cbn; by rewrite app_nil_r|constructor].
Qed.
End DecoderProperties.

Lemma example_codec_laws : pydub.CodecLaws example_codec.
Proof. split; cbn; intros ? ? ? [= <-]; done. Qed.

Section DecoderClaims.
Context `{Codec : pydub.Codec}.

(** C2: when a decode attempt of a call succeeds (at least [min_pages] pages
    are accumulated, the primitive decodes the accumulated bytes and the
    three conversions go through), the call returns the raw samples of the
    decoded audio converted to the sample rate and channel count of the
    output configuration and to 2-byte (16-bit) samples, and on return the
    buffer is empty and the page count is 0. *)
Theorem feed_success_returns_normalized_pcm `{!pydub.CodecLaws Codec}
    (ogg_page : bytes) (self : DialogSession)
    (decoded resampled remixed audio : pydub.AudioSegment) :
  ogg_pages_count self + 1 >= min_pages ->
  pydub.from_file (ogg_buffer self ++ ogg_page) "ogg" = Some decoded ->
  pydub.set_frame_rate decoded (sample_rate (output_config self)) = Some resampled ->
  pydub.set_channels resampled (channels (output_config self)) = Some remixed ->
  pydub.set_sample_width remixed 2 = Some audio ->
  fst (_process_ogg_stream ogg_page self) = pydub.raw_data audio /\
  pydub.frame_rate audio = sample_rate (output_config self) /\
  pydub.channels audio = channels (output_config self) /\
  pydub.sample_width audio = 2 /\
  ogg_buffer (snd (_process_ogg_stream ogg_page self)) = [] /\
  ogg_pages_count (snd (_process_ogg_stream ogg_page self)) = 0.
Proof.
  intros Hmin Hdec Hrate Hchan Hwidth.
  assert (Hd : decode_buffer (accumulate ogg_page self) = Some (pydub.raw_data audio)).
  { unfold decode_buffer. cbn [accumulate set_ogg ogg_buffer output_config].
    rewrite Hdec. cbn. rewrite Hrate. cbn. rewrite Hchan. cbn. by rewrite Hwidth. }
  rewrite process_ogg_stream_cases. cbn zeta.
  rewrite bool_decide_eq_true_2 by (cbn; lia). rewrite Hd. cbn [fst snd].
  apply pydub.set_frame_rate_spec in Hrate as (Hr1 & Hr2 & Hr3).
  apply pydub.set_channels_spec in Hchan as (Hc1 & Hc2 & Hc3).
  apply pydub.set_sample_width_spec in Hwidth as (Hw1 & Hw2 & Hw3).
  repeat split; try done; congruence.
Qed.

(** C3, amended: on a call with at least [min_pages] pages accumulated, no
    successful decode and the overflow condition (8 pages or more, or more
    than 50,000 buffered bytes), the call returns no data and leaves the
    buffer empty and the page count 0.  And on every call the two fields go
    together: on return either both are reset, or both still hold the
    accumulated pages. *)
Theorem feed_overflow_resets_accumulator (ogg_page : bytes) (self : DialogSession) :
  (ogg_pages_count self + 1 >= min_pages ->
   decode_buffer (accumulate ogg_page self) = None ->
   ogg_pages_count self + 1 >= max_pages
   \/ Z.of_nat (length (ogg_buffer self ++ ogg_page)) > 50000 ->
   fst (_process_ogg_stream ogg_page self) = [] /\
   ogg_buffer (snd (_process_ogg_stream ogg_page self)) = [] /\
   ogg_pages_count (snd (_process_ogg_stream ogg_page self)) = 0)
  /\
  ((ogg_buffer (snd (_process_ogg_stream ogg_page self)) = [] /\
    ogg_pages_count (snd (_process_ogg_stream ogg_page self)) = 0)
   \/
   (ogg_buffer (snd (_process_ogg_stream ogg_page self)) = ogg_buffer self ++ ogg_page /\
    ogg_pages_count (snd (_process_ogg_stream ogg_page self)) = ogg_pages_count self + 1)).
Proof.
  rewrite process_ogg_stream_cases. cbn zeta. split.
  - intros Hmin Hd Hov.
    rewrite bool_decide_eq_true_2 by (cbn; lia). rewrite Hd.
    assert (Ho : overflow (accumulate ogg_page self) = true).
    { unfold overflow. cbn [accumulate set_ogg ogg_buffer ogg_pages_count].
      apply orb_true_iff. destruct Hov as [Hov|Hov]; [left|right];
        apply bool_decide_eq_true_2; lia. }
    by rewrite Ho.
  - case_bool_decide; [|by right].
    destruct (decode_buffer _); [by left|].
    destruct (overflow _); [by left|by right].
Qed.

(** C10: on a call that brings the page count to less than [min_pages] the
    50,000-byte cap is not looked at: the call returns no data, makes no
    external call, and keeps every accumulated byte and the page count,
    whatever the buffer length.  Such a call can return with more than
    50,000 bytes buffered. *)
Theorem feed_cap_not_checked_below_min_pages :
  (forall (ogg_page : bytes) (self : DialogSession),
      ogg_pages_count self + 1 < min_pages ->
      fst (_process_ogg_stream ogg_page self) = [] /\
      ogg_buffer (snd (_process_ogg_stream ogg_page self)) = ogg_buffer self ++ ogg_page /\
      ogg_pages_count (snd (_process_ogg_stream ogg_page self)) = ogg_pages_count self + 1 /\
      trace (snd (_process_ogg_stream ogg_page self)) = trace self)
  /\
  (exists (ogg_page : bytes) (self : DialogSession),
      ogg_pages_count self + 1 < min_pages /\
      Z.of_nat (length (ogg_buffer self)) > 50000 /\
      fst (_process_ogg_stream ogg_page self) = [] /\
      Z.of_nat (length (ogg_buffer (snd (_process_ogg_stream ogg_page self)))) > 50000 /\
      ogg_pages_count (snd (_process_ogg_stream ogg_page self)) = 2).
Proof.
  split.
  - intros ogg_page self Hlt. by rewrite process_ogg_stream_below_min.
  - exists [x00], (set_ogg (replicate (Z.to_nat 50001) x00) 1 (__init__ config_py)).
    rewrite process_ogg_stream_below_min by (cbn; unfold min_pages; lia).
    cbn [fst snd accumulate set_ogg ogg_buffer ogg_pages_count].
    rewrite length_app, length_replicate. cbn [length]. repeat split; lia.
Qed.

(** C6: in every run of calls, a call that brings the page count to less
    than [min_pages] returns no data, makes no call of the decode primitive
    and keeps the accumulated pages; and every call of the primitive made
    during the run has a window of at least [min_pages] pages. *)
Theorem no_decode_below_min_pages
    (before : list bytes) (ogg_page : bytes) (after : list bytes) (self0 : DialogSession) :
  (let self := snd (process_ogg_pages before self0) in
   ogg_pages_count self + 1 < min_pages ->
   fst (_process_ogg_stream ogg_page self) = [] /\
   trace (snd (_process_ogg_stream ogg_page self)) = trace self /\
   ogg_buffer (snd (_process_ogg_stream ogg_page self)) = ogg_buffer self ++ ogg_page /\
   ogg_pages_count (snd (_process_ogg_stream ogg_page self)) = ogg_pages_count self + 1)
  /\
  (exists new,
      trace (snd (process_ogg_pages (before ++ ogg_page :: after) self0))
      = trace self0 ++ new /\
      Forall (fun e => exists n data,
                  e = pydub_from_file n data /\ min_pages <= n <= max_pages) new).
Proof.
  split.
  - intros self Hlt. by rewrite process_ogg_stream_below_min.
  - generalize (before ++ ogg_page :: after). clear. intros ogg_pages.
    revert self0. induction ogg_pages as [|p ps IH]; intros self0.
    + exists []. cbn. split; [by rewrite app_nil_r|constructor].
    + cbn [process_ogg_pages].
      destruct (process_ogg_stream_trace p self0) as (new1 & Ht1 & Hall1).
      destruct (_process_ogg_stream p self0) as [pcm_data self1]. cbn [snd] in Ht1.
      destruct (IH self1) as (new2 & Ht2 & Hall2).
      destruct (process_ogg_pages ps self1) as [results self2]. cbn [snd] in *.
      exists (new1 ++ new2). split.
      * by rewrite Ht2, Ht1, app_assoc.
      * apply Forall_app. split; [|done].
        eapply Forall_impl; [exact Hall1|].
        intros e (n & -> & Hn & _). by exists n, (ogg_buffer self0 ++ p).
Qed.

(** C9: within one call every decode attempt gets the whole accumulated
    buffer, whatever the window size; the first attempt succeeds or none
    does; and the call gives the same result and leaves the same session
    (the record of external calls apart) as one decode of the whole buffer
    in place of the loop. *)
Theorem retry_loop_is_single_attempt (ogg_page : bytes) (self : DialogSession) :
  (exists new,
      trace (snd (_process_ogg_stream ogg_page self)) = trace self ++ new /\
      Forall (fun e => exists n, e = pydub_from_file n (ogg_buffer self ++ ogg_page)) new /\
      ((exists pcm_data,
           decode_buffer (accumulate ogg_page self) = Some pcm_data /\
           new = [pydub_from_file min_pages (ogg_buffer self ++ ogg_page)] /\
           fst (_process_ogg_stream ogg_page self) = pcm_data)
       \/
       ((new = [] \/ decode_buffer (accumulate ogg_page self) = None) /\
        fst (_process_ogg_stream ogg_page self) = [])))
  /\
  fst (_process_ogg_stream ogg_page self)
  = fst (process_ogg_stream_single_attempt ogg_page self)
  /\
  forget_trace (snd (_process_ogg_stream ogg_page self))
  = forget_trace (snd (process_ogg_stream_single_attempt ogg_page self)).
Proof.
  rewrite process_ogg_stream_cases. cbn zeta.
  unfold process_ogg_stream_single_attempt. fold (overflow (accumulate ogg_page self)).
  case_bool_decide as Hmin.
  - destruct (decode_buffer (accumulate ogg_page self)) as [pcm_data|] eqn:Hd.
    + split; [|done]. eexists. split; [reflexivity|]. split.
      * apply Forall_singleton. by exists min_pages.
      * left. by exists pcm_data.
    + assert (Hall : forall attempts,
                 Forall (fun e => exists n, e = pydub_from_file n (ogg_buffer self ++ ogg_page))
                        (failed_attempts attempts (accumulate ogg_page self))).
      { intros attempts. apply Forall_fmap, Forall_forall. intros n _. by exists n. }
      destruct (overflow _); (split; [|done]); eexists;
        (split; [reflexivity|]); (split; [apply Hall|]); right; (split; [by right|done]).
  - split; [|done]. exists []. split; [cbn; by rewrite app_nil_r|].
    split; [constructor|]. right. split; [by left|done].
Qed.
End DecoderClaims.

Lemma feed_success_returns_normalized_pcm_witness :
  let self := set_ogg OggS 2 (__init__ config_py) in
  let audio := {| pydub.raw_data := OggS ++ [x00]; pydub.frame_rate := 24000;
                  pydub.channels := 1; pydub.sample_width := 2 |} in
  fst (@_process_ogg_stream example_codec [x00] self) = pydub.raw_data audio /\
  pydub.frame_rate audio = sample_rate (output_config self) /\
  pydub.channels audio = channels (output_config self) /\
  pydub.sample_width audio = 2 /\
  ogg_buffer (snd (@_process_ogg_stream example_codec [x00] self)) = [] /\
  ogg_pages_count (snd (@_process_ogg_stream example_codec [x00] self)) = 0.
Proof.
  cbv zeta.
  eapply (@feed_success_returns_normalized_pcm example_codec example_codec_laws
            [x00] (set_ogg OggS 2 (__init__ config_py))).
  - unfold min_pages. cbn. lia.
  - reflexivity.
  - reflexivity.
  - reflexivity.
  - reflexivity.
Defined.

(** C3 as stated fails: a first page of 50,001 bytes meets the overflow
    condition and no decode attempt succeeds (none is made), yet the call
    returns with the page counted and all its bytes buffered. *)
Lemma feed_overflow_not_reset_below_min_pages :
  let self := __init__ config_py in
  let ogg_page := replicate (Z.to_nat 50001) x00 in
  let self' := snd (@_process_ogg_stream undecodable_codec ogg_page self) in
  trace self' = trace self /\
  @decode_buffer undecodable_codec (accumulate ogg_page self) = None /\
  Z.of_nat (length (ogg_buffer self ++ ogg_page)) > 50000 /\
  ~ (ogg_buffer self' = [] /\ ogg_pages_count self' = 0).
Proof.
  cbv zeta.
  rewrite (@process_ogg_stream_below_min undecodable_codec)
    by (unfold min_pages; cbn; lia).
  split; [reflexivity|]. split; [reflexivity|]. split.
  - rewrite length_app, length_replicate. cbn [length ogg_buffer __init__]. cbn. lia.
  - intros [_ Hcount]. cbn in Hcount. discriminate.
Qed.

Lemma feed_overflow_resets_accumulator_witness :
  let self := set_ogg [x00] 7 (__init__ config_py) in
  fst (@_process_ogg_stream undecodable_codec [x01] self) = [] /\
  ogg_buffer (snd (@_process_ogg_stream undecodable_codec [x01] self)) = [] /\
  ogg_pages_count (snd (@_process_ogg_stream undecodable_codec [x01] self)) = 0.
Proof.
  cbv zeta.
  apply (proj1 (@feed_overflow_resets_accumulator undecodable_codec [x01]
                  (set_ogg [x00] 7 (__init__ config_py)))).
  - unfold min_pages. cbn. lia.
  - reflexivity.
  - left. unfold max_pages. cbn. lia.
Defined.

Lemma feed_cap_not_checked_below_min_pages_witness :
  let self := set_ogg (replicate (Z.to_nat 60000) x00) 1 (__init__ config_py) in
  fst (@_process_ogg_stream example_codec [x01] self) = [] /\
  ogg_buffer (snd (@_process_ogg_stream example_codec [x01] self))
  = ogg_buffer self ++ [x01] /\
  ogg_pages_count (snd (@_process_ogg_stream example_codec [x01] self))
  = ogg_pages_count self + 1 /\
  trace (snd (@_process_ogg_stream example_codec [x01] self)) = trace self.
Proof.
  cbv zeta.
  apply (proj1 (@feed_cap_not_checked_below_min_pages example_codec)).
  unfold min_pages. cbn. lia.
Defined.

(** Two calls on a fresh session: both return no data and make no call of
    the decode primitive. *)
Lemma no_decode_below_min_pages_witness :
  let self := snd (@process_ogg_pages example_codec [OggS] (__init__ config_py)) in
  fst (@_process_ogg_stream example_codec OggS self) = [] /\
  trace (snd (@_process_ogg_stream example_codec OggS self)) = trace self /\
  ogg_buffer (snd (@_process_ogg_stream example_codec OggS self)) = ogg_buffer self ++ OggS /\
  ogg_pages_count (snd (@_process_ogg_stream example_codec OggS self))
  = ogg_pages_count self + 1.
Proof.
  apply (proj1 (@no_decode_below_min_pages example_codec [OggS] OggS [] (__init__ config_py))).
  vm_compute. reflexivity.
Defined.

(** Three pages that decode together: the third call returns the samples and
    leaves the accumulator empty. *)
Example three_pages_decode :
  let '(results, self) :=
    @process_ogg_pages example_codec [OggS; [x01]; [x02]] (__init__ config_py) in
  results = [[]; []; OggS ++ [x01; x02]] /\
  ogg_buffer self = [] /\ ogg_pages_count self = 0 /\
  trace self = [pa_open SpeakerStream; pydub_from_file 3 (OggS ++ [x01; x02])].
Proof. vm_compute. done. Qed.

(** Eight pages that never decode: the eighth call resets the accumulator. *)
Example eight_pages_reset :
  let '(results, self) :=
    @process_ogg_pages undecodable_codec (replicate 8 [x00]) (__init__ config_py) in
  results = replicate 8 [] /\ ogg_buffer self = [] /\ ogg_pages_count self = 0.
Proof. vm_compute. done. Qed.

(** ** PlaybackBuffer *)

Lemma drain_queue_empty (q : list bytes) : drain_queue q = [].
Proof. induction q; done. Qed.

(** The loop of the source, turn by turn: on an empty queue it stops, on any
    other it takes one chunk and goes on. *)
Lemma drain_queue_step (q : list bytes) :
  drain_queue q =
  if queue_empty q then q
  else match queue_get_nowait q with
       | Some (_, q') => drain_queue q'
       | None => drain_queue q
       end.
Proof. by destruct q. Qed.

Section ResponseClaims.
Context `{Codec : pydub.Codec}.
Variable config : ConfigModule.

Lemma response_with_type_not_empty (response : gmap string pyval) v :
  response !! "message_type" = Some v -> bool_decide (response = ∅) = false.
Proof.
  intros Hm. apply bool_decide_eq_false_2. intros ->.
  by rewrite lookup_empty in Hm.
Qed.

(** C7: a FullResponse frame (message type SERVER_FULL_RESPONSE, carrying a
    session id) with event code 450 empties the playback queue: whatever is
    queued, after [handle_server_response] has processed the frame the queue
    holds no chunk, and nothing else of the session has changed. *)
Theorem flush_event_empties_playback_queue
    (response : gmap string pyval) (session_id : pyval) (self : DialogSession) :
  response !! "message_type" = Some (PStr "SERVER_FULL_RESPONSE") ->
  response !! "event" = Some (PInt 450) ->
  response !! "session_id" = Some session_id ->
  handle_server_response config response self = (Ret (), set_audio_queue [] self) /\
  length (audio_queue (snd (handle_server_response config response self))) = 0%nat.
Proof.
  intros Hm He Hs.
  assert (handle_server_response config response self = (Ret (), set_audio_queue [] self))
    as ->; [|done].
  unfold handle_server_response.
  rewrite (response_with_type_not_empty _ _ Hm).
  unfold bind, getitem. rewrite Hm. cbn [py_eq_str].
  rewrite bool_decide_eq_false_2 by discriminate.
  rewrite bool_decide_eq_true_2 by reflexivity.
  rewrite He. cbn [py_eq_int].
  rewrite bool_decide_eq_true_2 by reflexivity.
  rewrite Hs. by rewrite drain_queue_empty.
Qed.

(** C1, amended: an Error frame (message type SERVER_ERROR) makes
    [handle_server_response] raise an exception, which ends the receive loop
    there: no later frame is processed.  The session itself is left as it
    was, flags included. *)
Theorem error_frame_stops_receive_loop
    (response : gmap string pyval) (later : list received) (self : DialogSession) :
  response !! "message_type" = Some (PStr "SERVER_ERROR") ->
  exists e,
    is_Exception e = true /\
    handle_server_response config response self = (Raise e, self) /\
    receive_loop config (frame response :: later) self = (Some (receive_error e), self).
Proof.
  intros Hm.
  assert (exists e, is_Exception e = true /\
                    handle_server_response config response self = (Raise e, self))
    as (e & He & Hh).
  { unfold handle_server_response.
    rewrite (response_with_type_not_empty _ _ Hm).
    unfold bind, getitem, raise. rewrite Hm. cbn [py_eq_str].
    rewrite bool_decide_eq_false_2 by discriminate.
    rewrite bool_decide_eq_false_2 by discriminate.
    rewrite bool_decide_eq_true_2 by reflexivity.
    destruct (response !! "payload_msg") as [v|].
    - by exists ServerError.
    - by exists (KeyError "payload_msg"). }
  exists e. split; [done|]. split; [done|].
  cbn [receive_loop receive_iteration]. rewrite Hh.
  unfold receive_exit_of. by rewrite He.
Qed.
End ResponseClaims.

Lemma flush_event_empties_playback_queue_witness :
  let self := set_audio_queue [[x01]; [x02]; [x03]; [x04]; [x05]] (__init__ config_py) in
  @handle_server_response example_codec config_py flush_frame self
  = (Ret (), set_audio_queue [] self) /\
  length (audio_queue (snd (@handle_server_response example_codec config_py flush_frame self)))
  = 0%nat.
Proof.
  cbv zeta.
  apply (@flush_event_empties_playback_queue example_codec config_py flush_frame (PStr "s-1")).
  - reflexivity.
  - reflexivity.
  - reflexivity.
Defined.

Lemma error_frame_stops_receive_loop_witness :
  exists e,
    is_Exception e = true /\
    @handle_server_response example_codec config_py error_frame (__init__ config_py)
    = (Raise e, __init__ config_py) /\
    @receive_loop example_codec config_py [frame error_frame; frame flush_frame]
                  (__init__ config_py)
    = (Some (receive_error e), __init__ config_py).
Proof.
  apply (@error_frame_stops_receive_loop example_codec config_py error_frame
           [frame flush_frame] (__init__ config_py)).
  reflexivity.
Defined.

(** C1 as stated fails: after the Error frame of the specification's
    scenario the receive loop has stopped, but [is_running] and
    [is_recording] are still set, and the next turn of the capture loop
    reads and sends a chunk. *)
Lemma error_frame_leaves_capture_running :
  let self := __init__ config_py in
  let self' := snd (@receive_iteration example_codec config_py (frame error_frame) self) in
  fst (@receive_iteration example_codec config_py (frame error_frame) self)
  = Some (receive_error ServerError) /\
  is_running self' = true /\
  is_recording self' = true /\
  capture_iteration (mic_read [x00]) self'
  = (None, emit [pa_read MicStream; client_task_request [x00]] self').
Proof. vm_compute. done. Qed.

(** ** SessionController: release of the audio device *)

Lemma releases_app es1 es2 : releases (es1 ++ es2) = releases es1 ++ releases es2.
Proof. apply filter_app. Qed.

Lemma releases_emit es self :
  releases (trace (emit es self)) = releases (trace self) ++ releases es.
Proof. apply releases_app. Qed.


(** The steps of the capture coroutine and of the player thread: what they
    add to the trace and what they leave alone. *)

Lemma capture_step_trace ev st self :
  exists new,
    trace (snd (capture_step ev st self)) = trace self ++ new /\
    Forall (fun e => is_audio_io e = true \/ e = pa_open MicStream) new.
Proof.
  destruct st, ev; cbn; try destruct (is_recording self); cbn;
    first [ by (exists []; split; [by rewrite app_nil_r|constructor])
          | (eexists; split; [reflexivity|];
             repeat (constructor; [first [by left|by right]|]);
             constructor) ].
Qed.

Lemma capture_step_fields ev st self :
  let self' := snd (capture_step ev st self) in
  (is_running self', is_session_finished self', is_recording self', is_playing self',
   output_config self', output_stream self', audio_queue self',
   ogg_buffer self', ogg_pages_count self')
  = (is_running self, is_session_finished self, is_recording self, is_playing self,
     output_config self, output_stream self, audio_queue self,
     ogg_buffer self, ogg_pages_count self) /\
  AudioDeviceManager.output_stream (audio_device self')
  = AudioDeviceManager.output_stream (audio_device self) /\
  (AudioDeviceManager.input_stream (audio_device self')
   = AudioDeviceManager.input_stream (audio_device self)
   \/ AudioDeviceManager.input_stream (audio_device self') = Some MicStream).
Proof.
  cbv zeta. destruct st, ev; cbn;
    try (destruct (is_recording self) eqn:Hrec; cbn; rewrite ?Hrec);
    first [ by (split; [done|split; [done|by left]])
          | by (split; [done|split; [done|by right]]) ].
Qed.

Lemma player_step_trace st self :
  exists new,
    trace (snd (player_step st self)) = trace self ++ new /\
    Forall (fun e => is_audio_io e = true) new.
Proof.
  destruct st; cbn.
  - exists []. destruct (is_playing self); cbn; by rewrite app_nil_r.
  - exists []. destruct (audio_queue self); cbn; by rewrite app_nil_r.
  - eexists. split; [reflexivity|]. by repeat constructor.
  - exists []. by rewrite app_nil_r.
Qed.

Lemma player_step_fields st self :
  let self' := snd (player_step st self) in
  (is_running self', is_session_finished self', is_recording self', is_playing self',
   output_config self', output_stream self', audio_device self',
   ogg_buffer self', ogg_pages_count self')
  = (is_running self, is_session_finished self, is_recording self, is_playing self,
     output_config self, output_stream self, audio_device self,
     ogg_buffer self, ogg_pages_count self).
Proof.
  cbv zeta. destruct st; cbn; try done.
  - by destruct (is_playing self) eqn:Hplay; cbn; rewrite ?Hplay.
  - by destruct (audio_queue self).
Qed.

Lemma filter_steps_nil (keep : effect -> bool) new :
  (forall e, is_audio_io e = true -> keep e = false) ->
  keep (pa_open MicStream) = false ->
  Forall (fun e => is_audio_io e = true \/ e = pa_open MicStream) new ->
  filter (fun e => keep e = true) new = [].
Proof.
  intros Hio Hopen. induction 1 as [|e new He _ IH]; [done|].
  rewrite filter_cons_False; [done|].
  destruct He as [He| ->]; [rewrite (Hio _ He)|rewrite Hopen]; discriminate.
Qed.

(** Run without interruption, the steps of a turn make the turn of
    [capture_iteration] and of [audio_player_iteration]. *)
Lemma capture_steps_make_turn audio_data self :
  is_recording self = true ->
  let '(st1, self1) := capture_step (mic_read audio_data) capture_at_loop_top self in
  let '(st2, self2) := capture_step (mic_read audio_data) st1 self1 in
  capture_step (mic_read audio_data) st2 self2
  = (capture_at_loop_top, snd (capture_iteration (mic_read audio_data) self)).
Proof.
  intros Hrec. unfold capture_iteration. cbn [capture_step]. rewrite Hrec.
  cbn [capture_step snd]. by rewrite emit_emit.
Qed.

Lemma player_steps_make_turn audio_data q self :
  is_playing self = true ->
  audio_queue self = audio_data :: q ->
  let '(st1, self1) := player_step player_at_loop_top self in
  let '(st2, self2) := player_step st1 self1 in
  player_step st2 self2 = (player_at_loop_top, snd (audio_player_iteration self)).
Proof.
  intros Hplay Hq. unfold audio_player_iteration. cbn [player_step].
  rewrite Hplay. cbn [player_step]. by rewrite Hq.
Qed.

Lemma filter_run_capture_task (keep : effect -> bool) ev w :
  (forall e, is_audio_io e = true -> keep e = false) ->
  keep (pa_open MicStream) = false ->
  filter (fun e => keep e = true) (trace (session (run_capture_task ev w)))
  = filter (fun e => keep e = true) (trace (session w)).
Proof.
  intros Hio Hopen. unfold run_capture_task.
  destruct (capture_step_trace ev (capture_task w) (session w)) as (new & Ht & Hall).
  destruct (capture_step ev (capture_task w) (session w)) as [st self1].
  cbn [snd session] in *.
  by rewrite Ht, filter_app, (filter_steps_nil keep new Hio Hopen Hall), app_nil_r.
Qed.

Lemma filter_run_player_thread (keep : effect -> bool) w :
  (forall e, is_audio_io e = true -> keep e = false) ->
  filter (fun e => keep e = true) (trace (session (run_player_thread w)))
  = filter (fun e => keep e = true) (trace (session w)).
Proof.
  intros Hio. unfold run_player_thread.
  destruct (player_step_trace (player_thread w) (session w)) as (new & Ht & Hall).
  destruct (player_step (player_thread w) (session w)) as [st self1].
  cbn [snd session] in *. rewrite Ht, filter_app.
  assert (filter (fun e => keep e = true) new = []) as ->; [|by rewrite app_nil_r].
  clear Ht. induction Hall as [|e new He _ IH]; [done|].
  rewrite filter_cons_False; [done|]. rewrite (Hio _ He). discriminate.
Qed.

Section ReleaseClaims.
Context `{Codec : pydub.Codec}.
Variable config : ConfigModule.




Lemma releases_capture_iteration ev self :
  releases (trace (snd (capture_iteration ev self))) = releases (trace self).
Proof.
  unfold capture_iteration. destruct (is_recording self); [|done].
  destruct ev; cbn [snd]; rewrite ?releases_emit; cbn; by rewrite ?app_nil_r.
Qed.






End ReleaseClaims.

(** The three exits on a fresh session, with the release calls made: the
    microphone stream is stopped and closed when the capture task had opened
    it, the speaker stream always, then the device is terminated. *)
Example release_on_normal_completion :
  let '(exit, w) :=
    @start example_codec config_py
      [ {| during := []; raised := None |};
        {| during := [capture_wakes (mic_read [x00]); capture_wakes (mic_read [x00]);
                      capture_wakes (mic_read [x00]); capture_wakes (mic_read [x00]);
                      SIGINT];
           raised := None |};
        {| during := [receive_wakes (frame finish_frame)]; raised := None |};
        {| during := []; raised := None |};
        {| during := []; raised := None |};
        {| during := []; raised := None |} ]
      (new_event_loop config_py) in
  exit = start_returned /\
  trace (session w)
  = [ pa_open SpeakerStream; client_connect; pa_open MicStream;
      pa_read MicStream; client_task_request [x00];
      client_finish_session; client_finish_connection; client_close;
      pa_stop_stream MicStream; pa_close MicStream;
      pa_stop_stream SpeakerStream; pa_close SpeakerStream; pa_terminate ].
Proof. vm_compute. done. Qed.

Example release_on_connect_failure :
  let '(exit, w) :=
    @start example_codec config_py
      [ {| during := []; raised := Some LibraryError |} ]
      (new_event_loop config_py) in
  exit = start_caught LibraryError /\
  trace (session w)
  = [ pa_open SpeakerStream; client_connect;
      pa_stop_stream SpeakerStream; pa_close SpeakerStream; pa_terminate ].
Proof. vm_compute. done. Qed.

(** After an Error frame the receive task is gone while [start] goes on; a
    later stop signal takes [start] to the wait for the finished flag, which
    no task is left to set. *)
Example error_frame_then_stop_signal :
  let '(exit, w) :=
    @start example_codec config_py
      [ {| during := []; raised := None |};
        {| during := [receive_wakes (frame error_frame)]; raised := None |};
        {| during := [SIGINT]; raised := None |};
        {| during := [receive_wakes (frame finish_frame)]; raised := None |};
        {| during := []; raised := None |} ]
      (new_event_loop config_py) in
  exit = start_pending at_finished_sleep /\
  receive_task w = finished /\
  is_session_finished (session w) = false /\
  releases (trace (session w)) = [].
Proof. vm_compute. done. Qed.

(** The format test's [pop('tts', None)] switches the fallback to "ogg". *)
Lemma pop_tts_not_configured config :
  has_configured_uncompressed_reply (pop_tts config) = false.
Proof.
  unfold has_configured_uncompressed_reply, pop_tts. cbn.
  destruct (start_session_req config) as [req|]; [|done]. cbn.
  apply bool_decide_eq_false_2. rewrite lookup_delete_eq. by intros [? ?].
Qed.

(** * Further properties of the code *)

(** ** The detector *)

(** X1: the detector answers "pcm" or "ogg" and nothing else, and it answers
    "pcm" exactly for the inputs shorter than four bytes and for the inputs
    without any of the three markers when a "tts" entry is configured. *)
Theorem detect_pcm_exactly_when (config : ConfigModule) (audio_data : bytes) :
  (_detect_audio_format config audio_data = "pcm"
   \/ _detect_audio_format config audio_data = "ogg") /\
  (_detect_audio_format config audio_data = "pcm" <->
   (length audio_data < 4)%nat \/
   (has_configured_uncompressed_reply config = true /\
    take 4 audio_data <> OggS /\ take 4 audio_data <> EBML /\
    bytes_in OpusHead (take 64 audio_data) = false)).
Proof.
  unfold _detect_audio_format. rewrite no_tts_config_flag.
  case_bool_decide as Hlen.
  { split; [by left|]. split; [intros _; left; lia|done]. }
  case_bool_decide as Hogg.
  { split; [by right|]. split; [done|]. intros [?|(_ & ? & _)]; [lia|done]. }
  case_bool_decide as Hebml.
  { split; [by right|]. split; [done|]. intros [?|(_ & _ & ? & _)]; [lia|done]. }
  destruct (bytes_in OpusHead (take 64 audio_data)).
  { split; [by right|]. split; [done|]. intros [?|(_ & _ & _ & ?)]; [lia|done]. }
  destruct (has_configured_uncompressed_reply config); cbn.
  - split; [by left|]. split; [by right|done].
  - split; [by right|]. split; [done|]. intros [?|(? & _)]; [lia|done].
Qed.

(** X2: the detector looks at the first 64 bytes only: an input and its
    first 64 bytes are classified alike. *)
Theorem detect_depends_on_first_64_bytes (config : ConfigModule) (audio_data : bytes) :
  _detect_audio_format config audio_data
  = _detect_audio_format config (take 64 audio_data).
Proof.
  unfold _detect_audio_format.
  rewrite !take_take. change (4 `min` 64)%nat with 4%nat.
  change (64 `min` 64)%nat with 64%nat.
  rewrite length_take.
  destruct (decide (Z.of_nat (length audio_data) < 4)) as [Hlt|Hge].
  - rewrite !bool_decide_eq_true_2 by lia. done.
  - rewrite (bool_decide_eq_false_2 (Z.of_nat (length audio_data) < 4)) by done.
    rewrite (bool_decide_eq_false_2 (Z.of_nat (64 `min` length audio_data) < 4)) by lia.
    done.
Qed.

(** X3: without a "tts" entry in the configuration, as in [config.py], every
    input of four bytes or more goes to the OGG decoder, raw samples
    included, and only the shorter ones are taken as PCM. *)
Theorem detect_without_tts_ogg_from_four_bytes
    (config : ConfigModule) (audio_data : bytes) :
  has_configured_uncompressed_reply config = false ->
  (_detect_audio_format config audio_data = "ogg" <-> (4 <= length audio_data)%nat).
Proof.
  intros Hno. unfold _detect_audio_format. rewrite no_tts_config_flag, Hno. cbn.
  case_bool_decide as Hlen.
  - split; [done|lia].
  - split; [lia|intros _]. by repeat case_match.
Qed.

Lemma detect_without_tts_ogg_from_four_bytes_witness :
  _detect_audio_format config_py [x00; x01; x02; x03; x04] = "ogg"
  <-> (4 <= length [x00; x01; x02; x03; x04])%nat.
Proof.
  apply (detect_without_tts_ogg_from_four_bytes config_py [x00; x01; x02; x03; x04]).
  reflexivity.
Defined.

(** X4: after [start_session_req.pop('tts', None)], as the format test does,
    no uncompressed reply is configured whatever the request held before,
    and every input of four bytes or more is classified "ogg". *)
Theorem detect_after_pop_tts
    (config : ConfigModule) (req : gmap string pyval) (audio_data : bytes) :
  start_session_req config = Some req ->
  start_session_req (pop_tts config) = Some (delete "tts" req) /\
  has_configured_uncompressed_reply (pop_tts config) = false /\
  (_detect_audio_format (pop_tts config) audio_data = "ogg"
   <-> (4 <= length audio_data)%nat).
Proof.
  intros Hreq.
  assert (Hno : has_configured_uncompressed_reply (pop_tts config) = false).
  { unfold has_configured_uncompressed_reply, pop_tts. cbn. rewrite Hreq. cbn.
    apply bool_decide_eq_false_2. rewrite lookup_delete_eq. by intros [? ?]. }
  split; [unfold pop_tts; cbn; by rewrite Hreq|]. split; [done|].
  unfold _detect_audio_format. rewrite no_tts_config_flag, Hno. cbn.
  case_bool_decide as Hlen.
  - split; [done|lia].
  - split; [lia|intros _]. by repeat case_match.
Qed.

Lemma detect_after_pop_tts_witness :
  start_session_req (pop_tts config_with_tts)
  = Some (delete "tts" (<[ "tts" :=
                PDict {[ "audio_config" :=
                         PDict (<[ "channel" := PInt 1 ]>
                                (<[ "format" := PStr "pcm" ]>
                                 {[ "sample_rate" := PInt 24000 ]})) ]} ]>
             {[ "dialog" := PDict {[ "bot_name" := PStr "豆包" ]} ]})) /\
  has_configured_uncompressed_reply (pop_tts config_with_tts) = false /\
  (_detect_audio_format (pop_tts config_with_tts) [x00; x01; x02; x03] = "ogg"
   <-> (4 <= length [x00; x01; x02; x03])%nat).
Proof.
  apply (detect_after_pop_tts config_with_tts _ [x00; x01; x02; x03]).
  reflexivity.
Defined.

(** ** The response handler and the receive loop *)

Section HandlerProperties.
Context `{Codec : pydub.Codec}.
Variable config : ConfigModule.

Lemma process_ogg_stream_controls ogg_page self :
  session_controls (snd (_process_ogg_stream ogg_page self)) = session_controls self /\
  audio_queue (snd (_process_ogg_stream ogg_page self)) = audio_queue self.
Proof.
  rewrite process_ogg_stream_cases. cbn zeta.
  case_bool_decide; [|done].
  destruct (decode_buffer _); [done|]. by destruct (overflow _).
Qed.

Lemma handle_server_response_controls response self :
  session_controls (snd (handle_server_response config response self))
  = session_controls self.
Proof.
  unfold handle_server_response, handle_server_ack, bind, getitem, ret, raise.
  repeat case_match; simplify_eq; cbn [snd]; try done;
    match goal with
    | H : _convert_ogg_to_pcm ?a ?s = _ |- _ =>
        pose proof (proj1 (process_ogg_stream_controls a s)) as Hc;
        unfold _convert_ogg_to_pcm in H; rewrite H in Hc; exact Hc
    end.
Qed.

(** X5: a response that is not empty and has no 'message_type' entry makes
    the handler raise KeyError and leaves the session as it was; the receive
    loop ends on it, also when the response carries a finish event, and the
    finished flag is then not set. *)
Theorem response_without_message_type_raises
    (response : gmap string pyval) (later : list received) (self : DialogSession) :
  response <> ∅ ->
  response !! "message_type" = None ->
  handle_server_response config response self
  = (Raise (KeyError "message_type"), self) /\
  receive_loop config (frame response :: later) self
  = (Some (receive_error (KeyError "message_type")), self).
Proof.
  intros Hne Hm.
  assert (Hh : handle_server_response config response self
               = (Raise (KeyError "message_type"), self)).
  { unfold handle_server_response. rewrite bool_decide_eq_false_2 by done.
    unfold bind, getitem. by rewrite Hm. }
  split; [done|]. cbn [receive_loop receive_iteration]. by rewrite Hh.
Qed.

(** X6: a flush frame (SERVER_FULL_RESPONSE, event 450) without a
    'session_id' entry makes the handler raise KeyError before the drain:
    the queue keeps its chunks. *)
Theorem flush_without_session_id_keeps_queue
    (response : gmap string pyval) (self : DialogSession) :
  response !! "message_type" = Some (PStr "SERVER_FULL_RESPONSE") ->
  response !! "event" = Some (PInt 450) ->
  response !! "session_id" = None ->
  handle_server_response config response self = (Raise (KeyError "session_id"), self) /\
  audio_queue (snd (handle_server_response config response self)) = audio_queue self.
Proof.
  intros Hm He Hs.
  assert (handle_server_response config response self
          = (Raise (KeyError "session_id"), self)) as ->; [|done].
  unfold handle_server_response.
  rewrite (response_with_type_not_empty _ _ Hm).
  unfold bind, getitem. rewrite Hm. cbn [py_eq_str].
  rewrite bool_decide_eq_false_2 by discriminate.
  rewrite bool_decide_eq_true_2 by reflexivity.
  rewrite He. cbn [py_eq_int].
  rewrite bool_decide_eq_true_2 by reflexivity.
  by rewrite Hs.
Qed.

(** X7: whatever frames arrive and however the loop ends, the receive loop
    changes neither [is_running], [is_recording], [is_playing] nor the audio
    device, the output configuration or the output stream. *)
Theorem receive_loop_keeps_flags_and_device (rs : list received) (self : DialogSession) :
  let self' := snd (receive_loop config rs self) in
  is_running self' = is_running self /\
  is_recording self' = is_recording self /\
  is_playing self' = is_playing self /\
  audio_device self' = audio_device self /\
  output_config self' = output_config self /\
  output_stream self' = output_stream self.
Proof.
  cbv zeta. revert self. induction rs as [|r rs IH]; intros self; [done|].
  cbn [receive_loop].
  assert (Hstep : session_controls (snd (receive_iteration config r self))
                  = (is_running self,
                     is_session_finished (snd (receive_iteration config r self)),
                     is_recording self, is_playing self,
                     audio_device self, output_config self, output_stream self)).
  { unfold receive_iteration. destruct r as [response|e]; [|done].
    pose proof (handle_server_response_controls response self) as Hc.
    destruct (handle_server_response config response self) as [[[]|e] self1];
      cbn [snd] in *.
    - destruct (is_finish_event response); cbn [snd];
        unfold session_controls in *; cbn; congruence.
    - unfold session_controls in *. congruence. }
  destruct (receive_iteration config r self) as [[ex|] self1]; cbn [snd] in *.
  - unfold session_controls in Hstep. repeat split; congruence.
  - specialize (IH self1). unfold session_controls in Hstep.
    destruct IH as (-> & -> & -> & -> & -> & ->). repeat split; congruence.
Qed.

(** X8: one call of the handler leaves the playback queue as it was, or
    empties it, or appends exactly one chunk, and that chunk is not empty:
    no empty chunk is ever queued. *)
Theorem handler_queue_step (response : gmap string pyval) (self : DialogSession) :
  let queue' := audio_queue (snd (handle_server_response config response self)) in
  queue' = audio_queue self \/
  queue' = [] \/
  exists audio_data, audio_data <> [] /\ queue' = audio_queue self ++ [audio_data].
Proof.
  cbv zeta.
  unfold handle_server_response, handle_server_ack, bind, getitem, ret, raise.
  repeat case_match; simplify_eq; cbn [snd set_audio_queue audio_queue];
    try (by left);
    try (right; left; apply drain_queue_empty).
  - match goal with
    | H : _convert_ogg_to_pcm ?a ?s = _ |- _ =>
        pose proof (proj2 (process_ogg_stream_controls a s)) as Hq;
        unfold _convert_ogg_to_pcm in H; rewrite H in Hq; cbn [snd] in Hq
    end.
    by left.
  - match goal with
    | H : _convert_ogg_to_pcm ?a ?s = _ |- _ =>
        pose proof (proj2 (process_ogg_stream_controls a s)) as Hq;
        unfold _convert_ogg_to_pcm in H; rewrite H in Hq; cbn [snd] in Hq
    end.
    right. right. eexists. split; [|unfold queue_put; by rewrite Hq].
    intros ->. by match goal with H : bool_decide _ = false |- _ =>
                    apply bool_decide_eq_false_1 in H end.
  - match goal with
    | H : _convert_ogg_to_pcm ?a ?s = _ |- _ =>
        pose proof (proj2 (process_ogg_stream_controls a s)) as Hq;
        unfold _convert_ogg_to_pcm in H; rewrite H in Hq; cbn [snd] in Hq
    end.
    by left.
  - right. right. eexists. split; [|reflexivity].
    intros ->. by match goal with H : bool_decide (_ > 0) = true |- _ =>
                    apply bool_decide_eq_true_1 in H end.
Qed.
End HandlerProperties.

Lemma response_without_message_type_raises_witness :
  @handle_server_response example_codec config_py {[ "event" := PInt 152 ]}
                          (__init__ config_py)
  = (Raise (KeyError "message_type"), __init__ config_py) /\
  @receive_loop example_codec config_py
                [frame {[ "event" := PInt 152 ]}; frame finish_frame] (__init__ config_py)
  = (Some (receive_error (KeyError "message_type")), __init__ config_py).
Proof.
  apply (@response_without_message_type_raises example_codec config_py
           {[ "event" := PInt 152 ]} [frame finish_frame] (__init__ config_py)).
  - intros H. apply (f_equal (fun m : gmap string pyval => m !! "event")) in H.
    vm_compute in H. discriminate.
  - reflexivity.
Defined.

Lemma flush_without_session_id_keeps_queue_witness :
  let response : gmap string pyval :=
    <[ "message_type" := PStr "SERVER_FULL_RESPONSE" ]> {[ "event" := PInt 450 ]} in
  let self := set_audio_queue [[x01]; [x02]] (__init__ config_py) in
  @handle_server_response example_codec config_py response self
  = (Raise (KeyError "session_id"), self) /\
  audio_queue (snd (@handle_server_response example_codec config_py response self))
  = audio_queue self.
Proof.
  cbv zeta.
  apply (@flush_without_session_id_keeps_queue example_codec config_py).
  - reflexivity.
  - reflexivity.
  - reflexivity.
Defined.

Section ReceiveProperties.
Context `{Codec : pydub.Codec}.
Variable config : ConfigModule.

Lemma handle_pcm_ack audio_data self :
  _detect_audio_format config audio_data = "pcm" ->
  handle_server_response config (ack_frame audio_data) self
  = (Ret (),
     if bool_decide (Z.of_nat (length audio_data) > 0)
     then set_audio_queue (queue_put audio_data (audio_queue self)) self
     else self).
Proof.
  intros Hd. unfold handle_server_response.
  rewrite (response_with_type_not_empty _ (PStr "SERVER_ACK")) by reflexivity.
  unfold bind, getitem.
  change (ack_frame audio_data !! "message_type") with (Some (PStr "SERVER_ACK")).
  cbn [py_eq_str]. rewrite bool_decide_eq_true_2 by reflexivity.
  change (ack_frame audio_data !! "payload_msg") with (Some (PBytes audio_data)).
  cbn [is_bytes]. unfold handle_server_ack. rewrite Hd.
  rewrite bool_decide_eq_false_2 by discriminate.
  by case_bool_decide.
Qed.

(** X9: acknowledgement frames whose payloads the detector takes as PCM are
    queued untouched and in arrival order, the empty ones left out; the loop
    goes on, the OGG accumulator is not touched and no external call is
    made. *)
Theorem pcm_acks_queued_in_order (payloads : list bytes) (self : DialogSession) :
  Forall (fun audio_data => _detect_audio_format config audio_data = "pcm") payloads ->
  let result := receive_loop config (frame <$> (ack_frame <$> payloads)) self in
  fst result = None /\
  audio_queue (snd result)
  = audio_queue self ++ filter (fun audio_data => audio_data <> []) payloads /\
  ogg_buffer (snd result) = ogg_buffer self /\
  ogg_pages_count (snd result) = ogg_pages_count self /\
  trace (snd result) = trace self.
Proof.
  intros Hall. cbv zeta. revert self.
  induction Hall as [|audio_data payloads Hd _ IH]; intros self.
  - cbn. by rewrite app_nil_r.
  - cbn [fmap list_fmap receive_loop receive_iteration].
    rewrite (handle_pcm_ack _ _ Hd).
    change (is_finish_event (ack_frame audio_data)) with false. cbn iota.
    case_bool_decide as Hlen.
    + destruct (IH (set_audio_queue (queue_put audio_data (audio_queue self)) self))
        as (-> & -> & -> & -> & ->).
      rewrite filter_cons_True by (intros ->; cbn in Hlen; lia).
      cbn [set_audio_queue audio_queue ogg_buffer ogg_pages_count trace].
      unfold queue_put. by rewrite <- app_assoc.
    + destruct (IH self) as (-> & -> & -> & -> & ->).
      rewrite filter_cons_False; [done|].
      intros Hne. apply Hlen. destruct audio_data; [done|cbn; lia].
Qed.

(** X10: a frame of a message type other than the three the handler knows,
    and an acknowledgement whose payload is not a byte string, are ignored:
    the handler returns and the session is as it was. *)
Theorem other_frames_ignored
    (response : gmap string pyval) (message_type : pyval) (self : DialogSession) :
  response !! "message_type" = Some message_type ->
  py_eq_str message_type "SERVER_ACK" = false
  \/ is_bytes (response !! "payload_msg") = None ->
  py_eq_str message_type "SERVER_FULL_RESPONSE" = false ->
  py_eq_str message_type "SERVER_ERROR" = false ->
  handle_server_response config response self = (Ret (), self).
Proof.
  intros Hm Hack Hfull Herr. unfold handle_server_response.
  rewrite (response_with_type_not_empty _ _ Hm).
  unfold bind, getitem, ret. rewrite Hm, Hfull, Herr.
  destruct Hack as [-> | ->]; [done|].
  by destruct (py_eq_str message_type "SERVER_ACK").
Qed.


(** X12: once the receive loop has ended, frames that arrive later change
    nothing: they are not handled. *)
Theorem receive_loop_ends_once
    (rs later : list received) (self self' : DialogSession) (ex : receive_exit) :
  receive_loop config rs self = (Some ex, self') ->
  receive_loop config (rs ++ later) self = (Some ex, self').
Proof.
  revert self. induction rs as [|r rs IH]; intros self Hloop; [done|].
  cbn [receive_loop app] in *.
  destruct (receive_iteration config r self) as [[ex1|] self1]; [done|].
  by apply IH.
Qed.
End ReceiveProperties.

Lemma pcm_acks_queued_in_order_witness :
  let result :=
    @receive_loop example_codec config_with_tts
      (frame <$> (ack_frame <$> [[x01; x02; x03; x04]; []; [x05]])) (__init__ config_with_tts) in
  fst result = None /\
  audio_queue (snd result)
  = audio_queue (__init__ config_with_tts)
    ++ filter (fun audio_data => audio_data <> []) [[x01; x02; x03; x04]; []; [x05]] /\
  ogg_buffer (snd result) = ogg_buffer (__init__ config_with_tts) /\
  ogg_pages_count (snd result) = ogg_pages_count (__init__ config_with_tts) /\
  trace (snd result) = trace (__init__ config_with_tts).
Proof.
  apply (@pcm_acks_queued_in_order example_codec config_with_tts
           [[x01; x02; x03; x04]; []; [x05]] (__init__ config_with_tts)).
  repeat constructor.
Defined.

Lemma other_frames_ignored_witness :
  @handle_server_response example_codec config_py
     (<[ "message_type" := PStr "SERVER_ACK" ]> {[ "payload_msg" := PStr "text" ]})
     (__init__ config_py)
  = (Ret (), __init__ config_py).
Proof.
  apply (@other_frames_ignored example_codec config_py _ (PStr "SERVER_ACK")).
  - reflexivity.
  - right. reflexivity.
  - reflexivity.
  - reflexivity.
Defined.


Lemma receive_loop_ends_once_witness :
  @receive_loop example_codec config_py
     ([frame error_frame] ++ [frame flush_frame]) (__init__ config_py)
  = (Some (receive_error ServerError), __init__ config_py).
Proof.
  apply (@receive_loop_ends_once example_codec config_py [frame error_frame]
           [frame flush_frame] (__init__ config_py)).
  reflexivity.
Defined.

(** ** The accumulator over runs of calls *)

Section AccumulatorProperties.
Context `{Codec : pydub.Codec}.

Lemma process_ogg_stream_accumulator ogg_page self :
  (ogg_buffer (snd (_process_ogg_stream ogg_page self)) = [] /\
   ogg_pages_count (snd (_process_ogg_stream ogg_page self)) = 0)
  \/
  (ogg_buffer (snd (_process_ogg_stream ogg_page self)) = ogg_buffer self ++ ogg_page /\
   ogg_pages_count (snd (_process_ogg_stream ogg_page self)) = ogg_pages_count self + 1 /\
   (ogg_pages_count self + 1 >= min_pages ->
    ogg_pages_count self + 1 < max_pages /\
    Z.of_nat (length (ogg_buffer self ++ ogg_page)) <= 50000)).
Proof.
  rewrite process_ogg_stream_cases. cbn zeta.
  case_bool_decide as Hmin; cbn in Hmin.
  - destruct (decode_buffer _); [by left|].
    destruct (overflow _) eqn:Ho; [by left|]. right.
    unfold overflow in Ho. apply orb_false_iff in Ho as [Hp Hl].
    apply bool_decide_eq_false_1 in Hp. apply bool_decide_eq_false_1 in Hl.
    cbn in Hp, Hl. cbn. repeat split; lia.
  - right. cbn. repeat split; lia.
Qed.

Lemma process_ogg_pages_snoc ogg_page ogg_pages self :
  snd (process_ogg_pages (ogg_page :: ogg_pages) self)
  = snd (process_ogg_pages ogg_pages (snd (_process_ogg_stream ogg_page self))).
Proof.
  cbn [process_ogg_pages].
  destruct (_process_ogg_stream ogg_page self) as [pcm_data self1]. cbn [snd].
  by destruct (process_ogg_pages ogg_pages self1).
Qed.

(** X13: between calls the accumulator stays within bounds.  If before a
    run of calls the page count is in 0..7 and, whenever it is 3 or more,
    the buffer holds at most 50,000 bytes, then the same is true after the
    run, whatever the pages and whatever decodes or not. *)
Theorem accumulator_stays_bounded (ogg_pages : list bytes) (self : DialogSession) :
  accumulator_bounded self ->
  accumulator_bounded (snd (process_ogg_pages ogg_pages self)).
Proof.
  revert self. induction ogg_pages as [|p ps IH]; intros self Hb; [done|].
  rewrite process_ogg_pages_snoc. apply IH.
  unfold accumulator_bounded, min_pages, max_pages in *.
  destruct (process_ogg_stream_accumulator p self)
    as [[-> ->]|(-> & -> & Hcap)].
  - cbn. lia.
  - unfold min_pages, max_pages in Hcap. lia.
Qed.

Lemma last_pages_step (n : Z) (history : list bytes) (ogg_page : bytes) :
  0 <= n <= Z.of_nat (length history) ->
  last_pages (n + 1) (history ++ [ogg_page]) = last_pages n history ++ ogg_page.
Proof.
  intros Hn. unfold last_pages. rewrite length_app. cbn [length].
  replace (length history + 1 - Z.to_nat (n + 1))%nat
    with (length history - Z.to_nat n)%nat by lia.
  rewrite drop_app_le by lia.
  by rewrite concat_app, concat_cons, app_nil_r.
Qed.

Lemma last_pages_history (history ogg_pages : list bytes) (self : DialogSession) :
  0 <= ogg_pages_count self <= Z.of_nat (length history) ->
  ogg_buffer self = last_pages (ogg_pages_count self) history ->
  let self' := snd (process_ogg_pages ogg_pages self) in
  0 <= ogg_pages_count self' <= Z.of_nat (length (history ++ ogg_pages)) /\
  ogg_buffer self' = last_pages (ogg_pages_count self') (history ++ ogg_pages).
Proof.
  cbv zeta. revert history self.
  induction ogg_pages as [|p ps IH]; intros history self Hc Hb.
  - by rewrite app_nil_r.
  - rewrite process_ogg_pages_snoc.
    replace (history ++ p :: ps) with ((history ++ [p]) ++ ps)
      by (by rewrite <- app_assoc).
    apply IH.
    + rewrite length_app. cbn [length].
      destruct (process_ogg_stream_accumulator p self) as [[_ ->]|(_ & -> & _)]; lia.
    + destruct (process_ogg_stream_accumulator p self) as [[-> ->]|(-> & -> & _)].
      * unfold last_pages. rewrite drop_ge; [done|]. cbn. lia.
      * by rewrite last_pages_step, Hb.
Qed.

(** X14: the page count and the buffer stay in step over any run of calls on
    a new session: after the run the buffer is the concatenation of the last
    [ogg_pages_count] pages of the run, byte for byte and in order. *)
Theorem buffer_holds_last_pages (config : ConfigModule) (ogg_pages : list bytes) :
  let self := snd (process_ogg_pages ogg_pages (__init__ config)) in
  0 <= ogg_pages_count self <= Z.of_nat (length ogg_pages) /\
  ogg_buffer self = last_pages (ogg_pages_count self) ogg_pages.
Proof.
  cbv zeta.
  pose proof (last_pages_history [] ogg_pages (__init__ config)) as H.
  cbn [app] in H. apply H.
  - cbn. lia.
  - reflexivity.
Qed.
End AccumulatorProperties.

Lemma accumulator_stays_bounded_witness :
  accumulator_bounded
    (snd (@process_ogg_pages undecodable_codec (replicate 9 [x00]) (__init__ config_py))).
Proof.
  apply (@accumulator_stays_bounded undecodable_codec (replicate 9 [x00])
           (__init__ config_py)).
  unfold accumulator_bounded, min_pages, max_pages. cbn. lia.
Defined.

(** ** Undecodable streams *)

Section UndecodableProperties.
Context `{Codec : pydub.Codec}.
Variable config : ConfigModule.

Lemma handle_ogg_ack audio_data self :
  _detect_audio_format config audio_data = "ogg" ->
  fst (_process_ogg_stream audio_data self) = [] ->
  handle_server_response config (ack_frame audio_data) self
  = (Ret (), snd (_process_ogg_stream audio_data self)).
Proof.
  intros Hd Hempty. unfold handle_server_response.
  rewrite (response_with_type_not_empty _ (PStr "SERVER_ACK")) by reflexivity.
  unfold bind, getitem.
  change (ack_frame audio_data !! "message_type") with (Some (PStr "SERVER_ACK")).
  cbn [py_eq_str]. rewrite bool_decide_eq_true_2 by reflexivity.
  change (ack_frame audio_data !! "payload_msg") with (Some (PBytes audio_data)).
  cbn [is_bytes]. unfold handle_server_ack, _convert_ogg_to_pcm. rewrite Hd.
  rewrite bool_decide_eq_true_2 by reflexivity.
  destruct (_process_ogg_stream audio_data self) as [pcm_data self1].
  cbn [fst snd] in *. subst pcm_data. by rewrite bool_decide_eq_true_2.
Qed.

Lemma undecodable_process_ogg_stream ogg_page self :
  (forall data fmt, pydub.from_file data fmt = None) ->
  fst (_process_ogg_stream ogg_page self) = [].
Proof.
  intros Hnone. rewrite process_ogg_stream_cases. cbn zeta.
  case_bool_decide; [|done].
  assert (decode_buffer (accumulate ogg_page self) = None) as ->.
  { unfold decode_buffer. by rewrite Hnone. }
  by destruct (overflow _).
Qed.

(** X15: when no "tts" entry is configured and the payloads do not decode
    as OGG (raw samples, say), acknowledgement frames of four bytes or more
    never reach the playback queue: the receive loop goes on and the queue
    stays as it was, however many frames arrive. *)
Theorem undecodable_acks_never_queued (payloads : list bytes) (self : DialogSession) :
  has_configured_uncompressed_reply config = false ->
  (forall data fmt, pydub.from_file data fmt = None) ->
  Forall (fun audio_data => (4 <= length audio_data)%nat) payloads ->
  let result := receive_loop config (frame <$> (ack_frame <$> payloads)) self in
  fst result = None /\ audio_queue (snd result) = audio_queue self.
Proof.
  intros Hno Hnone Hall. cbv zeta. revert self.
  induction Hall as [|audio_data payloads Hlen _ IH]; intros self; [done|].
  cbn [fmap list_fmap receive_loop receive_iteration].
  assert (Hd : _detect_audio_format config audio_data = "ogg").
  { unfold _detect_audio_format. rewrite no_tts_config_flag, Hno. cbn.
    rewrite bool_decide_eq_false_2 by lia. by repeat case_match. }
  rewrite (handle_ogg_ack _ _ Hd (undecodable_process_ogg_stream _ _ Hnone)).
  change (is_finish_event (ack_frame audio_data)) with false. cbn iota.
  destruct (IH (snd (_process_ogg_stream audio_data self))) as [-> ->].
  split; [done|]. apply process_ogg_stream_controls.
Qed.
End UndecodableProperties.

Lemma undecodable_acks_never_queued_witness :
  let payloads := replicate 10 [x00; x01; x02; x03] in
  let result :=
    @receive_loop undecodable_codec config_py (frame <$> (ack_frame <$> payloads))
                  (__init__ config_py) in
  fst result = None /\ audio_queue (snd result) = audio_queue (__init__ config_py).
Proof.
  cbv zeta.
  apply (@undecodable_acks_never_queued undecodable_codec config_py
           (replicate 10 [x00; x01; x02; x03]) (__init__ config_py)).
  - reflexivity.
  - reflexivity.
  - repeat constructor.
Defined.

(** ** The capture loop and the player loop *)


Lemma written_chunks_app es1 es2 :
  written_chunks (es1 ++ es2) = written_chunks es1 ++ written_chunks es2.
Proof. apply omap_app. Qed.



(** X17: while [is_playing] is set, the player loop writes the queued chunks
    to the output stream oldest first; after as many turns as there were
    chunks the queue is empty and the writes made are the chunks, in the
    order they were queued. *)
Theorem player_writes_queue_in_order (n : nat) (self : DialogSession) :
  is_playing self = true ->
  (length (audio_queue self) <= n)%nat ->
  written_chunks (trace (audio_player_run n self))
  = written_chunks (trace self) ++ audio_queue self /\
  audio_queue (audio_player_run n self) = [] /\
  is_playing (audio_player_run n self) = true.
Proof.
  revert self. induction n as [|n IH]; intros self Hplay Hlen.
  - destruct (audio_queue self) as [|c q] eqn:Hq; [|cbn in Hlen; lia].
    cbn. by rewrite app_nil_r.
  - cbn [audio_player_run]. unfold audio_player_iteration. rewrite Hplay.
    destruct (audio_queue self) as [|c q] eqn:Hq; cbn [queue_get_nowait snd].
    + destruct (IH self Hplay) as (-> & -> & ->); [rewrite Hq; cbn; lia|].
      by rewrite Hq.
    + destruct (IH (emit [pa_write SpeakerStream c] (set_audio_queue q self)))
        as (-> & -> & ->); [done|cbn in *; lia|].
      cbn [trace emit set_audio_queue audio_queue].
      rewrite written_chunks_app. cbn. by rewrite <- app_assoc.
Qed.

Lemma player_writes_queue_in_order_witness :
  let self := set_audio_queue [[x01]; [x02]; [x03]] (__init__ config_py) in
  written_chunks (trace (audio_player_run 5 self))
  = written_chunks (trace self) ++ audio_queue self /\
  audio_queue (audio_player_run 5 self) = [] /\
  is_playing (audio_player_run 5 self) = true.
Proof.
  cbv zeta.
  apply (player_writes_queue_in_order 5
           (set_audio_queue [[x01]; [x02]; [x03]] (__init__ config_py))).
  - reflexivity.
  - cbn. lia.
Defined.

(** ** Activities that run while [start] is suspended *)

Section BackgroundProperties.
Context `{Codec : pydub.Codec}.
Variable config : ConfigModule.

Lemma handle_server_response_trace response self :
  exists new,
    trace (snd (handle_server_response config response self)) = trace self ++ new /\
    Forall (fun e => is_decode e = true) new.
Proof.
  unfold handle_server_response, handle_server_ack, bind, getitem, ret, raise.
  repeat case_match; simplify_eq; cbn [snd set_audio_queue trace];
    try (exists []; by rewrite app_nil_r);
    match goal with
    | H : _convert_ogg_to_pcm ?a ?s = _ |- _ =>
        destruct (process_ogg_stream_trace a s) as (new & Ht & Hall);
        unfold _convert_ogg_to_pcm in H; rewrite H in Ht; cbn [snd] in Ht;
        exists new; split; [exact Ht|];
        eapply Forall_impl; [exact Hall|]; by intros e (n & -> & _)
    end.
Qed.

Lemma receive_iteration_trace r self :
  exists new,
    trace (snd (receive_iteration config r self)) = trace self ++ new /\
    Forall (fun e => is_decode e = true) new.
Proof.
  unfold receive_iteration. destruct r as [response|e].
  - destruct (handle_server_response_trace response self) as (new & Ht & Hall).
    destruct (handle_server_response config response self) as [[[]|e] self1];
      cbn [snd] in *; [|by exists new].
    destruct (is_finish_event response); by exists new.
  - exists []. by rewrite app_nil_r.
Qed.

Lemma receive_iteration_flags r self :
  let self' := snd (receive_iteration config r self) in
  is_running self' = is_running self /\
  is_recording self' = is_recording self /\
  is_playing self' = is_playing self /\
  (is_session_finished self' = is_session_finished self
   \/ (is_session_finished self' = true
       /\ fst (receive_iteration config r self) = Some session_finished_event)).
Proof.
  cbv zeta. unfold receive_iteration. destruct r as [response|e]; [|by auto].
  pose proof (handle_server_response_controls config response self) as Hc.
  unfold session_controls in Hc.
  destruct (handle_server_response config response self) as [[[]|e] self1];
    cbn [snd] in *.
  - destruct (is_finish_event response); cbn;
      (split; [congruence|]); (split; [congruence|]); (split; [congruence|]).
    + by right.
    + left. congruence.
  - (split; [congruence|]); (split; [congruence|]); (split; [congruence|]).
    left. congruence.
Qed.

Lemma capture_iteration_flags ev self :
  forget_trace (snd (capture_iteration ev self)) = forget_trace self /\
  (is_recording self = false -> snd (capture_iteration ev self) = self).
Proof.
  unfold capture_iteration. destruct (is_recording self); [|done].
  by destruct ev.
Qed.

Section Filtered.
Variable keep : effect -> bool.
Hypothesis keep_decode : forall e, is_decode e = true -> keep e = false.
Hypothesis keep_audio_io : forall e, is_audio_io e = true -> keep e = false.
Hypothesis keep_open : forall st, keep (pa_open st) = false.

Lemma filter_decode_nil new :
  Forall (fun e => is_decode e = true) new ->
  filter (fun e => keep e = true) new = [].
Proof.
  induction 1 as [|e new He _ IH]; [done|].
  rewrite filter_cons_False; [done|]. rewrite (keep_decode _ He). discriminate.
Qed.

Lemma filter_run_background b w :
  filter (fun e => keep e = true) (trace (session (run_background config b w)))
  = filter (fun e => keep e = true) (trace (session w)).
Proof.
  destruct b as [|r|ev|]; cbn [run_background].
  - done.
  - unfold run_receive_task.
    destruct (receive_iteration_trace r (session w)) as (new & Ht & Hall).
    destruct (receive_task w); try done;
      destruct (receive_iteration config r (session w)); cbn [snd session] in *;
      by rewrite Ht, filter_app, (filter_decode_nil _ Hall), app_nil_r.
  - apply (filter_run_capture_task keep); [exact keep_audio_io|apply keep_open].
  - apply (filter_run_player_thread keep). exact keep_audio_io.
Qed.

Lemma filter_run_backgrounds bs w :
  filter (fun e => keep e = true)
         (trace (session (foldl (fun w b => run_background config b w) w bs)))
  = filter (fun e => keep e = true) (trace (session w)).
Proof.
  revert w. induction bs as [|b bs IH]; intros w; [done|].
  cbn [foldl]. by rewrite IH, filter_run_background.
Qed.
End Filtered.

Lemma run_background_flags b w :
  (is_running (session w) = false ->
   is_running (session (run_background config b w)) = false) /\
  (is_session_finished (session w) = true ->
   is_session_finished (session (run_background config b w)) = true) /\
  (is_recording (session w) = false ->
   is_recording (session (run_background config b w)) = false) /\
  (is_playing (session w) = false ->
   is_playing (session (run_background config b w)) = false).
Proof.
  destruct b as [|r|ev|]; cbn [run_background].
  - done.
  - unfold run_receive_task.
    pose proof (receive_iteration_flags r (session w)) as (H1 & H2 & H3 & H4).
    destruct (receive_task w); try done;
      destruct (receive_iteration config r (session w)); cbn [fst snd session] in *;
      repeat split; intros; destruct H4 as [H4|[H4 _]]; congruence.
  - unfold run_capture_task.
    pose proof (proj1 (capture_step_fields ev (capture_task w) (session w))) as Hc.
    destruct (capture_step ev (capture_task w) (session w)) as [st self1].
    cbn [snd session] in *. repeat split; intros; congruence.
  - unfold run_player_thread.
    pose proof (player_step_fields (player_thread w) (session w)) as Hc.
    destruct (player_step (player_thread w) (session w)) as [st self1].
    cbn [snd session] in *. repeat split; intros; congruence.
Qed.

Lemma run_backgrounds_flags bs w :
  (is_running (session w) = false ->
   is_running (session (foldl (fun w b => run_background config b w) w bs)) = false) /\
  (is_session_finished (session w) = true ->
   is_session_finished (session (foldl (fun w b => run_background config b w) w bs))
   = true) /\
  (is_recording (session w) = false ->
   is_recording (session (foldl (fun w b => run_background config b w) w bs)) = false) /\
  (is_playing (session w) = false ->
   is_playing (session (foldl (fun w b => run_background config b w) w bs)) = false).
Proof.
  revert w. induction bs as [|b bs IH]; intros w; [done|].
  cbn [foldl].
  destruct (run_background_flags b w) as (H1 & H2 & H3 & H4).
  destruct (IH (run_background config b w)) as (I1 & I2 & I3 & I4).
  repeat split; auto.
Qed.
End BackgroundProperties.

Section StopSignalProperties.
Context `{Codec : pydub.Codec}.
Variable config : ConfigModule.







End StopSignalProperties.

(** ** The shutdown sequence of [start] *)

Section StartProperties.
Context `{Codec : pydub.Codec}.
Variable config : ConfigModule.

Lemma decode_not_control e : is_decode e = true -> is_control e = false.
Proof. by destruct e. Qed.

Lemma audio_io_not_control e : is_audio_io e = true -> is_control e = false.
Proof. by destruct e. Qed.

Lemma control_calls_run_backgrounds bs w :
  control_calls (trace (session (foldl (fun w b => run_background config b w) w bs)))
  = control_calls (trace (session w)).
Proof.
  apply (filter_run_backgrounds config is_control decode_not_control
           audio_io_not_control).
  done.
Qed.

Lemma control_calls_emit es self :
  control_calls (trace (emit es self)) = control_calls (trace self) ++ control_calls es.
Proof. apply filter_app. Qed.

Lemma after_await_controls p w c0 :
  control_calls (trace (session w)) = c0 ++ controls_at p ->
  match after_await p w with
  | (inl p', w') => control_calls (trace (session w')) = c0 ++ controls_at p'
  | (inr _, w') =>
      p = at_close /\ control_calls (trace (session w')) = c0 ++ controls_at at_close
  end.
Proof.
  intros Hc.
  destruct p; cbn [after_await]; unfold running_loop, finished_loop;
    repeat case_match; simplify_eq; cbn [session on_session];
    rewrite ?control_calls_emit, ?Hc; cbn; try done;
    by rewrite <- app_assoc.
Qed.

Lemma run_try_controls p ticks w c0 :
  control_calls (trace (session w)) = c0 ++ controls_at p ->
  exists p',
    control_calls (trace (session (snd (run_try config p ticks w))))
    = c0 ++ controls_at p' /\
    (fst (run_try config p ticks w) = completed -> p' = at_close) /\
    (forall q, fst (run_try config p ticks w) = still_awaiting q -> p' = q).
Proof.
  revert p w. induction ticks as [|t ticks IH]; intros p w Hc.
  - exists p. cbn. split; [done|]. split; [done|]. by intros q [= ->].
  - cbn [run_try].
    pose proof (control_calls_run_backgrounds (during t) w) as Hb.
    destruct (raised t).
    + exists p. cbn [fst snd]. split; [by rewrite Hb|]. split; [done|]. done.
    + pose proof (after_await_controls p
                    (foldl (fun w b => run_background config b w) w (during t)) c0) as Ha.
      rewrite Hb in Ha. specialize (Ha Hc).
      destruct (after_await p _) as [[p'|[]] w'].
      * by apply IH.
      * destruct Ha as [-> Ha]. exists at_close. cbn [fst snd].
        split; [done|]. split; [done|]. done.
Qed.

(** X19: [start] calls the transport in one order only: connect, finish
    session, finish connection, close.  At any moment, and on every exit,
    the calls made are the beginning of that sequence that belongs to the
    [await] reached; a normal return has made all four, and the cleanup
    adds none. *)
Theorem start_transport_calls_in_order (ticks : list tick) (w : EventLoop) :
  exists p,
    control_calls (trace (session (snd (start config ticks w))))
    = control_calls (trace (session w)) ++ controls_at p /\
    (fst (start config ticks w) = start_returned -> p = at_close) /\
    (forall q, fst (start config ticks w) = start_pending q -> p = q).
Proof.
  unfold start.
  destruct (run_try_controls at_connect ticks (on_session (emit [client_connect]) w)
              (control_calls (trace (session w)))) as (p & Hc & Hdone & Hpend).
  { cbn [session on_session]. by rewrite control_calls_emit. }
  assert (Hclean : forall w1,
             control_calls (trace (session (finally_cleanup w1)))
             = control_calls (trace (session w1))).
  { intros w1. unfold finally_cleanup. cbn [session on_session].
    rewrite control_calls_emit. unfold AudioDeviceManager.cleanup.
    destruct (AudioDeviceManager.input_stream _),
             (AudioDeviceManager.output_stream _); cbn; by rewrite app_nil_r. }
  exists p.
  destruct (run_try config at_connect ticks _) as [[q| |e] w1]; cbn [fst snd] in *.
  - split; [done|]. split; [done|]. intros q' [= <-]. by apply Hpend.
  - rewrite Hclean. split; [done|]. split; [by intros _; apply Hdone|done].
  - destruct (is_Exception e); cbn [fst snd]; rewrite Hclean;
      (split; [done|]); (split; done).
Qed.

Lemma after_await_phase p w :
  (past_running_loop p = true -> is_running (session w) = false) ->
  (past_finished_loop p = true -> is_session_finished (session w) = true) ->
  match after_await p w with
  | (inl p', w') =>
      (past_running_loop p' = true -> is_running (session w') = false) /\
      (past_finished_loop p' = true -> is_session_finished (session w') = true)
  | (inr _, w') =>
      is_running (session w') = false /\ is_session_finished (session w') = true
  end.
Proof.
  intros Hr Hf.
  destruct p; cbn [after_await]; unfold running_loop, finished_loop;
    repeat case_match; simplify_eq; cbn in *;
    repeat split; intros; try done; auto;
    try (by apply negb_false_iff).
Qed.

Lemma run_try_phase p ticks w :
  (past_running_loop p = true -> is_running (session w) = false) ->
  (past_finished_loop p = true -> is_session_finished (session w) = true) ->
  match run_try config p ticks w with
  | (still_awaiting p', w') =>
      (past_running_loop p' = true -> is_running (session w') = false) /\
      (past_finished_loop p' = true -> is_session_finished (session w') = true)
  | (completed, w') =>
      is_running (session w') = false /\ is_session_finished (session w') = true
  | (raised_in_try _, _) => True
  end.
Proof.
  revert p w. induction ticks as [|t ticks IH]; intros p w Hr Hf; [done|].
  cbn [run_try]. destruct (raised t); [done|].
  destruct (run_backgrounds_flags config (during t) w) as (B1 & B2 & _ & _).
  pose proof (after_await_phase p
                (foldl (fun w b => run_background config b w) w (during t))) as Ha.
  destruct (after_await p _) as [[p'|[]] w'].
  - apply IH; apply Ha; auto.
  - apply Ha; auto.
Qed.

(** X20: [start] returns normally only after the stop flag and the finished
    flag: whenever the try body has run to its end, [is_running] is clear
    and [is_session_finished] is set, whatever the session was like when
    [start] was called. *)
Theorem start_returns_only_after_stop_and_finish (ticks : list tick) (w : EventLoop) :
  fst (start config ticks w) = start_returned ->
  is_running (session (snd (start config ticks w))) = false /\
  is_session_finished (session (snd (start config ticks w))) = true.
Proof.
  unfold start.
  pose proof (run_try_phase at_connect ticks (on_session (emit [client_connect]) w)) as Hp.
  destruct (run_try config at_connect ticks _) as [[q| |e] w1]; cbn [fst snd].
  - discriminate.
  - intros _. by apply Hp.
  - by destruct (is_Exception e).
Qed.
End StartProperties.

Lemma start_returns_only_after_stop_and_finish_witness :
  let ticks :=
    [ {| during := []; raised := None |};
      {| during := [SIGINT]; raised := None |};
      {| during := [receive_wakes (frame finish_frame)]; raised := None |};
      {| during := []; raised := None |};
      {| during := []; raised := None |};
      {| during := []; raised := None |} ] in
  is_running (session (snd (@start example_codec config_py ticks
                                   (new_event_loop config_py)))) = false /\
  is_session_finished (session (snd (@start example_codec config_py ticks
                                            (new_event_loop config_py)))) = true.
Proof.
  cbv zeta.
  apply (@start_returns_only_after_stop_and_finish example_codec config_py).
  vm_compute. reflexivity.
Defined.

Section ReceiveEndedProperties.
Context `{Codec : pydub.Codec}.
Variable config : ConfigModule.

Lemma run_try_app p ticks later w :
  run_try config p (ticks ++ later) w =
  match run_try config p ticks w with
  | (still_awaiting p', w') => run_try config p' later w'
  | r => r
  end.
Proof.
  revert p w. induction ticks as [|t ticks IH]; intros p w; [done|].
  cbn [app run_try]. destruct (raised t); [done|].
  destruct (after_await p _) as [[p'|[]] w']; [apply IH|done].
Qed.

Lemma run_background_receive_ended b w :
  receive_task w = finished ->
  is_session_finished (session w) = false ->
  receive_task (run_background config b w) = finished /\
  is_session_finished (session (run_background config b w)) = false.
Proof.
  intros Hr Hf. destruct b as [|r|ev|]; cbn [run_background].
  - done.
  - unfold run_receive_task. by rewrite Hr.
  - unfold run_capture_task.
    pose proof (proj1 (capture_step_fields ev (capture_task w) (session w))) as Hc.
    destruct (capture_step ev (capture_task w) (session w)) as [st self1].
    cbn [snd session receive_task] in *. split; [done|congruence].
  - unfold run_player_thread.
    pose proof (player_step_fields (player_thread w) (session w)) as Hc.
    destruct (player_step (player_thread w) (session w)) as [st self1].
    cbn [snd session receive_task] in *. split; [done|congruence].
Qed.

Lemma run_backgrounds_receive_ended bs w :
  receive_task w = finished ->
  is_session_finished (session w) = false ->
  receive_task (foldl (fun w b => run_background config b w) w bs) = finished /\
  is_session_finished (session (foldl (fun w b => run_background config b w) w bs))
  = false.
Proof.
  revert w. induction bs as [|b bs IH]; intros w Hr Hf; [done|].
  cbn [foldl]. destruct (run_background_receive_ended b w Hr Hf). by apply IH.
Qed.

Lemma run_try_waiting p ticks w :
  p <> at_connect ->
  past_finished_loop p = false ->
  receive_task w = finished ->
  is_session_finished (session w) = false ->
  Forall (fun t => raised t = None) ticks ->
  exists p' w',
    run_try config p ticks w = (still_awaiting p', w') /\
    is_session_finished (session w') = false.
Proof.
  intros Hp Hpf Hr Hf Hall. revert p w Hp Hpf Hr Hf.
  induction Hall as [|t ticks Ht _ IH]; intros p w Hp Hpf Hr Hf.
  - by exists p, w.
  - cbn [run_try]. rewrite Ht.
    destruct (run_backgrounds_receive_ended (during t) w Hr Hf) as [Hr1 Hf1].
    set (w1 := foldl (fun w b => run_background config b w) w (during t)) in *.
    destruct p; try done; cbn [after_await]; unfold running_loop, finished_loop.
    + destruct (is_running (session w1)); by apply IH.
    + rewrite Hf1. cbn. by apply IH.
    + rewrite Hf1. cbn. by apply IH.
Qed.

(** X21: once the receive task has ended without the finished flag set (on
    an Error frame, a bad frame or a transport error), [start] cannot return
    by itself: as long as no awaited call raises and no cancellation comes,
    it stays suspended, stop signal or not, and the finished flag stays
    clear. *)
Theorem start_waits_forever_once_receive_ended
    (ticks later : list tick) (w : EventLoop) (p : await_point) :
  fst (start config ticks w) = start_pending p ->
  p <> at_connect ->
  receive_task (snd (start config ticks w)) = finished ->
  is_session_finished (session (snd (start config ticks w))) = false ->
  Forall (fun t => raised t = None) later ->
  exists p',
    fst (start config (ticks ++ later) w) = start_pending p' /\
    is_session_finished (session (snd (start config (ticks ++ later) w))) = false.
Proof.
  unfold start. rewrite run_try_app.
  pose proof (run_try_phase config at_connect ticks
                (on_session (emit [client_connect]) w)) as Hphase.
  destruct (run_try config at_connect ticks _) as [[q| |e] w1]; cbn [fst snd].
  - intros [= ->] Hp Hr Hf Hall.
    assert (Hpf : past_finished_loop p = false).
    { destruct (past_finished_loop p) eqn:Hpf; [|done].
      destruct Hphase as [_ Hfin]; [done|done|]. rewrite Hfin in Hf; done. }
    destruct (run_try_waiting p later w1 Hp Hpf Hr Hf Hall) as (p' & w' & -> & Hf').
    by exists p'.
  - discriminate.
  - by destruct (is_Exception e).
Qed.
End ReceiveEndedProperties.

Lemma start_waits_forever_once_receive_ended_witness :
  let ticks := [ {| during := []; raised := None |};
                 {| during := [receive_wakes (frame error_frame)]; raised := None |} ] in
  let later := [ {| during := [SIGINT]; raised := None |};
                 {| during := [receive_wakes (frame finish_frame)]; raised := None |};
                 {| during := []; raised := None |} ] in
  exists p',
    fst (@start example_codec config_py (ticks ++ later) (new_event_loop config_py))
    = start_pending p' /\
    is_session_finished
      (session (snd (@start example_codec config_py (ticks ++ later)
                            (new_event_loop config_py)))) = false.
Proof.
  cbv zeta.
  apply (@start_waits_forever_once_receive_ended example_codec config_py
           [ {| during := []; raised := None |};
             {| during := [receive_wakes (frame error_frame)]; raised := None |} ]
           _ (new_event_loop config_py) at_running_sleep).
  - vm_compute. reflexivity.
  - discriminate.
  - vm_compute. reflexivity.
  - vm_compute. reflexivity.
  - repeat constructor.
Defined.

(** ** What the decoder is given, and what becomes of its output *)

Section DecodeInputProperties.
Context `{Codec : pydub.Codec}.
Variable config : ConfigModule.

(** X22: on a new session, whatever pages were fed before, every decode
    attempt of a call is given the pages received since the last reset,
    this page included, concatenated in arrival order: nothing is dropped,
    repeated or reordered on the way to the decoder. *)
Theorem decode_input_is_pages_since_reset (ogg_pages : list bytes) (ogg_page : bytes) :
  let self := snd (process_ogg_pages ogg_pages (__init__ config)) in
  exists new,
    trace (snd (_process_ogg_stream ogg_page self)) = trace self ++ new /\
    Forall (fun e => exists n,
                e = pydub_from_file n
                      (last_pages (ogg_pages_count self + 1) (ogg_pages ++ [ogg_page])))
           new.
Proof.
  cbv zeta.
  pose proof (last_pages_history [] ogg_pages (__init__ config)) as Hh.
  cbn [app] in Hh. destruct Hh as [Hc Hb]; [cbn; lia|reflexivity|].
  destruct (process_ogg_stream_trace ogg_page
              (snd (process_ogg_pages ogg_pages (__init__ config))))
    as (new & Ht & Hall).
  exists new. split; [done|].
  eapply Forall_impl; [exact Hall|].
  intros e (n & -> & _). exists n.
  by rewrite last_pages_step, Hb.
Qed.

(** X23: a decode that succeeds without samples is taken for "not enough
    data": the handler queues nothing, and the accumulated pages are gone,
    since the accumulator was reset by the successful decode. *)
Theorem empty_decode_consumes_pages (audio_data : bytes) (self : DialogSession) :
  _detect_audio_format config audio_data = "ogg" ->
  ogg_pages_count self + 1 >= min_pages ->
  decode_buffer (accumulate audio_data self) = Some [] ->
  fst (handle_server_response config (ack_frame audio_data) self) = Ret () /\
  audio_queue (snd (handle_server_response config (ack_frame audio_data) self))
  = audio_queue self /\
  ogg_buffer (snd (handle_server_response config (ack_frame audio_data) self)) = [] /\
  ogg_pages_count (snd (handle_server_response config (ack_frame audio_data) self)) = 0.
Proof.
  intros Hd Hmin Hdec.
  assert (Hp : _process_ogg_stream audio_data self
               = ([], set_ogg [] 0
                        (emit [pydub_from_file min_pages
                                 (ogg_buffer (accumulate audio_data self))]
                              (accumulate audio_data self)))).
  { rewrite process_ogg_stream_cases. cbn zeta.
    rewrite bool_decide_eq_true_2 by (cbn; lia). by rewrite Hdec. }
  rewrite (handle_ogg_ack config _ _ Hd) by (by rewrite Hp).
  by rewrite Hp.
Qed.
End DecodeInputProperties.

Lemma empty_decode_consumes_pages_witness :
  let self := set_ogg [x01; x02] 2 (__init__ config_py) in
  let audio_data := [x00; x01; x02; x03] in
  fst (@handle_server_response silent_codec config_py (ack_frame audio_data) self)
  = Ret () /\
  audio_queue (snd (@handle_server_response silent_codec config_py
                                            (ack_frame audio_data) self))
  = audio_queue self /\
  ogg_buffer (snd (@handle_server_response silent_codec config_py
                                           (ack_frame audio_data) self)) = [] /\
  ogg_pages_count (snd (@handle_server_response silent_codec config_py
                                                (ack_frame audio_data) self)) = 0.
Proof.
  cbv zeta.
  apply (@empty_decode_consumes_pages silent_codec config_py).
  - reflexivity.
  - unfold min_pages. cbn. lia.
  - reflexivity.
Defined.

(** ** The release of the audio device *)

Section DeviceRelease.
Context `{Codec : pydub.Codec}.
Variable config : ConfigModule.




End DeviceRelease.
